(** * ubuntu-server-triage: a shallow embedding of [ubuntu_server_triage.py]

    The development follows the layout of the script:
    - [PyStr]   : the [str] methods the script calls ([split], [join],
                  [replace], the [%-Ns] conversion);
    - [Task]    : the class [Task] with its memoising [_cache];
    - [PyDate]  : the part of [datetime] used by [check_dates];
    - [Triage]  : [check_dates] and [modified_bugs].

    Python strings are modelled as [string] (one [ascii] per character),
    exceptions as the [Raise] constructor of [result]. *)

From Stdlib Require Import ZArith Lia List Ascii String.
From stdpp Require Import base option list gmap strings fin_maps.

Local Open Scope Z_scope.

(** ** Exceptions *)

Inductive exn : Type :=
| IndexError
| KeyError
| ValueError
| OverflowError.

Inductive result (A : Type) : Type :=
| Ok (a : A)
| Raise (e : exn).

Arguments Ok {A} a.
Arguments Raise {A} e.

Definition result_bind {A B : Type} (r : result A) (k : A -> result B) : result B :=
  match r with
  | Ok a => k a
  | Raise e => Raise e
  end.

Definition is_ok {A : Type} (r : result A) : bool :=
  match r with
  | Ok _ => true
  | Raise _ => false
  end.

(** ** Strings *)

Module PyStr.

(** The double-quote character, code 34. *)
Definition dquote : ascii := ascii_of_nat 34.
Definition space : ascii := ascii_of_nat 32.
Definition hash : ascii := ascii_of_nat 35.

Definition chars (s : string) : list ascii := list_ascii_of_string s.

(** [s.split(sep)] for a one-character separator: every occurrence of
    [sep] cuts, empty fields are kept, so the result is never empty. *)
Fixpoint split (sep : ascii) (s : string) : list string :=
  match s with
  | EmptyString => [EmptyString]
  | String c rest =>
      if Ascii.eqb c sep then EmptyString :: split sep rest
      else match split sep rest with
           | [] => [String c EmptyString]
           | tok :: toks => String c tok :: toks
           end
  end.

(** [sep.join(l)]. *)
Fixpoint join (sep : string) (l : list string) : string :=
  match l with
  | [] => EmptyString
  | [x] => x
  | x :: rest => x +:+ sep +:+ join sep rest
  end.

(** [s.replace(c, '')] for a one-character [c]: all occurrences go. *)
Fixpoint remove (c : ascii) (s : string) : string :=
  match s with
  | EmptyString => EmptyString
  | String a rest =>
      if Ascii.eqb a c then remove c rest else String a (remove c rest)
  end.

Fixpoint spaces (n : nat) : string :=
  match n with
  | O => EmptyString
  | S k => String space (spaces k)
  end.

(** ['%-Ns' % s]: left-justified in a field of at least [n] characters,
    never truncated. *)
Definition ljust (n : nat) (s : string) : string :=
  s +:+ spaces (n - String.length s).

(** [l[i]]: IndexError out of range (only non-negative indices occur). *)
Definition index {A : Type} (l : list A) (i : nat) : result A :=
  match l !! i with
  | Some x => Ok x
  | None => Raise IndexError
  end.

(** [l[i:]]: a slice never raises. *)
Definition slice_from {A : Type} (l : list A) (i : nat) : list A := drop i l.

End PyStr.

(** ** The remote record *)

(** What launchpadlib hands back for a bug task, restricted to the three
    attributes the script reads. *)
Record lp_task : Type := mk_lp_task {
  self_link : string;
  lp_title : string;
  lp_status : string
}.

(** ** class Task *)

Module Task.

Definition LONG_URL_ROOT : string := "https://bugs.launchpad.net/bugs/".
Definition SHORTLINK_ROOT : string := "LP: #".
Definition BUG_NUMBER_LENGTH : nat := 7.

(** An instance: the wrapped object, the [_cache] dict and the
    [subscribed] attribute ([None] until something sets it). *)
Record t : Type := mk {
  obj : lp_task;
  _cache : gmap string string;
  subscribed : option bool
}.

(** [__init__] followed by the body of [create_from_launchpadlib_object];
    the only keyword the script ever passes is [subscribed]. *)
Definition create_from_launchpadlib_object (o : lp_task) (sub : bool) : t :=
  {| obj := o; _cache := ∅; subscribed := Some sub |}.

(** Methods run against the instance they may mutate. *)
Definition M (A : Type) : Type := t -> result A * t.

Definition ret {A : Type} (a : A) : M A := fun self => (Ok a, self).

Definition raise {A : Type} (e : exn) : M A := fun self => (Raise e, self).

Definition bind {A B : Type} (m : M A) (k : A -> M B) : M B :=
  fun self =>
    match m self with
    | (Ok a, self') => k a self'
    | (Raise e, self') => (Raise e, self')
    end.

Definition lift {A : Type} (r : result A) : M A := fun self => (r, self).

#[global] Instance M_ret : MRet M := @ret.
#[global] Instance M_bind : MBind M := fun A B k m => bind m k.

(** [try: return self._cache[key]  except KeyError: handler]. *)
Definition try_cache (key : string) (handler : M string) : M string :=
  fun self =>
    match _cache self !! key with
    | Some v => (Ok v, self)
    | None => handler self
    end.

(** [self._cache[key] = v]. *)
Definition cache_store (key v : string) : M unit :=
  fun self =>
    (Ok tt, {| obj := obj self;
               _cache := <[key := v]> (_cache self);
               subscribed := subscribed self |}).

(** [self._cache[key]] outside a [try]. *)
Definition cache_load (key : string) : M string :=
  fun self =>
    match _cache self !! key with
    | Some v => (Ok v, self)
    | None => (Raise KeyError, self)
    end.

Definition get_obj : M lp_task := fun self => (Ok (obj self), self).

Definition get_subscribed : M (option bool) :=
  fun self => (Ok (subscribed self), self).

Definition title : M string :=
  try_cache "title"
    (o ← get_obj;
     cache_store "title" (lp_title o) ;;
     cache_load "title").

Definition status : M string :=
  try_cache "status"
    (o ← get_obj;
     cache_store "status" (lp_status o) ;;
     cache_load "status").

(** The right-hand sides of lines 62, 71 and 98, as functions of the
    title. *)
Definition parse_number (title : string) : result string :=
  result_bind (PyStr.index (PyStr.split PyStr.space title) 1) (fun tok =>
    Ok (PyStr.remove PyStr.hash tok)).

Definition parse_src (title : string) : result string :=
  PyStr.index (PyStr.split PyStr.space title) 3.

Definition parse_short_title (title : string) : string :=
  PyStr.remove PyStr.dquote
    (PyStr.join " " (PyStr.slice_from (PyStr.split PyStr.space title) 5)).

Definition number : M string :=
  try_cache "number"
    (ti ← title;
     v ← lift (parse_number ti);
     cache_store "number" v ;;
     cache_load "number").

Definition src : M string :=
  try_cache "src"
    (ti ← title;
     v ← lift (parse_src ti);
     cache_store "src" v ;;
     cache_load "src").

Definition short_title : M string :=
  try_cache "short_title"
    (ti ← title;
     let short_title := parse_short_title ti in
     cache_store "short_title" short_title ;;
     cache_load "short_title").

Definition url : M string :=
  n ← number; ret (LONG_URL_ROOT +:+ n).

Definition shortlink : M string :=
  n ← number; ret (SHORTLINK_ROOT +:+ n).

(** [bool(self.subscribed)]: [None] and [False] are falsy. *)
Definition truthy (b : option bool) : bool :=
  match b with
  | Some true => true
  | _ => false
  end.

Definition compose_pretty (shortlinks : bool) : M string :=
  bug_url ←
    (if shortlinks
     then s ← shortlink;
          ret (PyStr.ljust (BUG_NUMBER_LENGTH + String.length SHORTLINK_ROOT) s)
     else u ← url;
          ret (PyStr.ljust (BUG_NUMBER_LENGTH + String.length LONG_URL_ROOT) u));
  sub ← get_subscribed;
  st ← status;
  sr ← src;
  sh ← short_title;
  ret (bug_url +:+ " - "
       +:+ PyStr.ljust 16 ((if truthy sub then "*" else "") +:+ "(" +:+ st +:+ ")")
       +:+ " "
       +:+ PyStr.ljust 16 ("[" +:+ sr +:+ "]")
       +:+ " - " +:+ sh).

(** *** What the methods compute *)

(** The line of [compose_pretty] as a function of the wrapped object and
    of [subscribed]; the methods are related to it below. *)
Definition pretty_line (shortlinks : bool) (o : lp_task) (sub : option bool)
  : result string :=
  result_bind (parse_number (lp_title o)) (fun n =>
    result_bind (parse_src (lp_title o)) (fun sr =>
      let bug_url :=
        if shortlinks
        then PyStr.ljust (BUG_NUMBER_LENGTH + String.length SHORTLINK_ROOT)
               (SHORTLINK_ROOT +:+ n)
        else PyStr.ljust (BUG_NUMBER_LENGTH + String.length LONG_URL_ROOT)
               (LONG_URL_ROOT +:+ n) in
      Ok (bug_url +:+ " - "
          +:+ PyStr.ljust 16
                ((if truthy sub then "*" else "") +:+ "(" +:+ lp_status o +:+ ")")
          +:+ " "
          +:+ PyStr.ljust 16 ("[" +:+ sr +:+ "]")
          +:+ " - " +:+ parse_short_title (lp_title o)))).

(** Every entry of [_cache] is the value its property would compute from
    the wrapped object. It holds of a new instance and the methods keep
    it. *)
Record cache_ok (self : t) : Prop := {
  ok_title : forall v, _cache self !! "title" = Some v -> v = lp_title (obj self);
  ok_status : forall v, _cache self !! "status" = Some v -> v = lp_status (obj self);
  ok_number : forall v,
    _cache self !! "number" = Some v -> parse_number (lp_title (obj self)) = Ok v;
  ok_src : forall v,
    _cache self !! "src" = Some v -> parse_src (lp_title (obj self)) = Ok v;
  ok_short_title : forall v,
    _cache self !! "short_title" = Some v
    -> v = parse_short_title (lp_title (obj self))
}.

(** [m] returns [f] of the object and of [subscribed], keeps the cache
    sound and touches nothing but the cache. *)
Definition computes {A : Type} (m : M A) (f : lp_task -> option bool -> result A)
  : Prop :=
  forall self, cache_ok self ->
    (m self).1 = f (obj self) (subscribed self)
    /\ cache_ok (m self).2
    /\ obj (m self).2 = obj self
    /\ subscribed (m self).2 = subscribed self.

End Task.

(** ** datetime *)

(** The part of Python's [datetime] module that [check_dates] reaches:
    proleptic Gregorian ordinals (day 1 is 0001-01-01), [date] plus or
    minus a [timedelta] of whole days, [weekday], and the two conversions
    with the format [%Y-%m-%d].  Function names are those of the pure
    Python implementation of the module. *)

Module PyDate.

Record date : Type := mk_date { year : Z; month : Z; day : Z }.

Record datetime : Type := mk_datetime {
  dt_date : date;
  hour : Z;
  minute : Z;
  second : Z;
  microsecond : Z
}.

Definition MINYEAR : Z := 1.
Definition MAXYEAR : Z := 9999.
Definition _MAXORDINAL : Z := 3652059.

Definition _DAYS_IN_MONTH : list Z :=
  [-1; 31; 28; 31; 30; 31; 30; 31; 31; 30; 31; 30; 31].

Definition _DAYS_BEFORE_MONTH : list Z :=
  [-1; 0; 31; 59; 90; 120; 151; 181; 212; 243; 273; 304; 334].

Definition table (l : list Z) (i : Z) : Z := nth (Z.to_nat i) l (-1).

Definition _is_leap (y : Z) : bool :=
  (y mod 4 =? 0) && (negb (y mod 100 =? 0) || (y mod 400 =? 0)).

Definition _days_before_year (y0 : Z) : Z :=
  let y := y0 - 1 in
  y * 365 + y / 4 - y / 100 + y / 400.

Definition _days_in_month (y m : Z) : Z :=
  if (m =? 2) && _is_leap y then 29 else table _DAYS_IN_MONTH m.

Definition _days_before_month (y m : Z) : Z :=
  table _DAYS_BEFORE_MONTH m + (if (2 <? m) && _is_leap y then 1 else 0).

Definition _ymd2ord (y m d : Z) : Z :=
  _days_before_year y + _days_before_month y m + d.

Definition _DI400Y : Z := 146097.
Definition _DI100Y : Z := 36524.
Definition _DI4Y : Z := 1461.

Definition _ord2ymd (n0 : Z) : date :=
  let n := n0 - 1 in
  let n400 := n / _DI400Y in
  let n := n mod _DI400Y in
  let y := n400 * 400 + 1 in
  let n100 := n / _DI100Y in
  let n := n mod _DI100Y in
  let n4 := n / _DI4Y in
  let n := n mod _DI4Y in
  let n1 := n / 365 in
  let n := n mod 365 in
  let y := y + n100 * 100 + n4 * 4 + n1 in
  if (n1 =? 4) || (n100 =? 4) then mk_date (y - 1) 12 31
  else
    let leapyear := (n1 =? 3) && (negb (n4 =? 24) || (n100 =? 3)) in
    let m := Z.shiftr (n + 50) 5 in
    let preceding :=
      table _DAYS_BEFORE_MONTH m + (if (2 <? m) && leapyear then 1 else 0) in
    if n <? preceding then
      let m' := m - 1 in
      let preceding' :=
        preceding
        - (table _DAYS_IN_MONTH m' + (if (m' =? 2) && leapyear then 1 else 0)) in
      mk_date y m' (n - preceding' + 1)
    else mk_date y m (n - preceding + 1).

(** What the [date] constructor accepts. *)
Definition valid_date (d : date) : bool :=
  (MINYEAR <=? year d) && (year d <=? MAXYEAR)
  && (1 <=? month d) && (month d <=? 12)
  && (1 <=? day d) && (day d <=? _days_in_month (year d) (month d)).

(** [valid_date] without the upper bound on the year, as a proposition. *)
Definition well_formed (d : date) : Prop :=
  1 <= year d /\ 1 <= month d <= 12
  /\ 1 <= day d <= _days_in_month (year d) (month d).

(** The month and the day that [_ord2ymd] finds for day [n] (from 0) of
    a year. *)
Definition month_day (leapyear : bool) (n : Z) : Z * Z :=
  let m := Z.shiftr (n + 50) 5 in
  let preceding :=
    table _DAYS_BEFORE_MONTH m + (if (2 <? m) && leapyear then 1 else 0) in
  if n <? preceding then
    let m' := m - 1 in
    let preceding' :=
      preceding
      - (table _DAYS_IN_MONTH m' + (if (m' =? 2) && leapyear then 1 else 0)) in
    (m', n - preceding' + 1)
  else (m, n - preceding + 1).

Definition toordinal (d : date) : Z := _ymd2ord (year d) (month d) (day d).

Definition fromordinal (n : Z) : date := _ord2ymd n.

(** Monday is 0, Sunday is 6. *)
Definition weekday (d : date) : Z := (toordinal d + 6) mod 7.

(** [d + timedelta(days=k)], and [d - timedelta(days=k)] as [d + (-k)]. *)
Definition date_add_days (d : date) (k : Z) : result date :=
  let o := toordinal d + k in
  if (0 <? o) && (o <=? _MAXORDINAL) then Ok (fromordinal o)
  else Raise OverflowError.

(** [dt + timedelta(days=k)]: the time of day is kept. *)
Definition datetime_add_days (dt : datetime) (k : Z) : result datetime :=
  result_bind (date_add_days (dt_date dt) k) (fun d =>
    Ok {| dt_date := d; hour := hour dt; minute := minute dt;
          second := second dt; microsecond := microsecond dt |}).

Definition midnight (d : date) : datetime :=
  {| dt_date := d; hour := 0; minute := 0; second := 0; microsecond := 0 |}.

(** [datetime.min]. *)
Definition datetime_min : datetime := midnight (mk_date 1 1 1).

(** *** strftime('%Y-%m-%d') *)

Definition digit_char (d : Z) : ascii := ascii_of_nat (48 + Z.to_nat d).

Definition pad2 (n : Z) : string :=
  String (digit_char (n / 10)) (String (digit_char (n mod 10)) EmptyString).

Definition pad4 (n : Z) : string :=
  String (digit_char (n / 1000))
    (String (digit_char (n / 100 mod 10)) (pad2 (n mod 100))).

(** [%Y] is left to the C library. glibc, the library of the systems the
    script is written for, writes the year as a plain decimal number, so
    that a year below 1000 comes out on fewer than four digits (other
    libraries, and CPython from 3.13 on, pad it with zeros); from 1000 on
    all of them write the same four digits. A [date] has its year between
    1 and 9999. *)
Definition year_text (y : Z) : string :=
  if y <? 10 then String (digit_char y) EmptyString
  else if y <? 100 then pad2 y
  else if y <? 1000 then String (digit_char (y / 100)) (pad2 (y mod 100))
  else pad4 y.

Definition strftime (d : date) : string :=
  year_text (year d) +:+ "-" +:+ pad2 (month d) +:+ "-" +:+ pad2 (day d).

(** *** strptime(s, '%Y-%m-%d') *)

(** The format compiles to the regular expression
      (?P<Y>\d\d\d\d)-(?P<m>1[0-2]|0[1-9]|[1-9])-(?P<d>3[0-1]|[1-2]\d|0[1-9]|[1-9]| [1-9])
    matched at the start of the input; alternatives are tried in order. A
    group is modelled by the list of its matches, best first, each with
    the text left over. *)

Definition digit_val (c : ascii) : option Z :=
  let n := Z.of_nat (nat_of_ascii c) in
  if (48 <=? n) && (n <=? 57) then Some (n - 48) else None.

Definition in_range (lo hi : Z) (c : ascii) : option Z :=
  match digit_val c with
  | Some v => if (lo <=? v) && (v <=? hi) then Some v else None
  | None => None
  end.

(** Two characters [a] in [lo1..hi1] and [b] in [lo2..hi2]. *)
Definition two_digits (lo1 hi1 lo2 hi2 : Z) (s : string) : list (Z * string) :=
  match s with
  | String a (String b rest) =>
      match in_range lo1 hi1 a, in_range lo2 hi2 b with
      | Some x, Some y => [(10 * x + y, rest)]
      | _, _ => []
      end
  | _ => []
  end.

Definition one_digit (lo hi : Z) (s : string) : list (Z * string) :=
  match s with
  | String a rest =>
      match in_range lo hi a with
      | Some x => [(x, rest)]
      | None => []
      end
  | _ => []
  end.

Definition literal (c : ascii) (s : string) : list string :=
  match s with
  | String a rest => if Ascii.eqb a c then [rest] else []
  | _ => []
  end.

Definition re_Y (s : string) : list (Z * string) :=
  match s with
  | String a (String b (String c (String d rest))) =>
      match digit_val a, digit_val b, digit_val c, digit_val d with
      | Some x3, Some x2, Some x1, Some x0 =>
          [(1000 * x3 + 100 * x2 + 10 * x1 + x0, rest)]
      | _, _, _, _ => []
      end
  | _ => []
  end.

Definition re_m (s : string) : list (Z * string) :=
  two_digits 1 1 0 2 s ++ two_digits 0 0 1 9 s ++ one_digit 1 9 s.

Definition re_d (s : string) : list (Z * string) :=
  two_digits 3 3 0 1 s ++ two_digits 1 2 0 9 s ++ two_digits 0 0 1 9 s
  ++ one_digit 1 9 s
  ++ (r ← literal PyStr.space s; one_digit 1 9 r).

Definition minus_sign : ascii := ascii_of_nat 45.

(** The first match of the whole expression, with the unconverted rest. *)
Definition format_regex_match (s : string) : option (date * string) :=
  head ('(y, r1) ← re_Y s;
        r2 ← literal minus_sign r1;
        '(m, r3) ← re_m r2;
        r4 ← literal minus_sign r3;
        '(d, r5) ← re_d r4;
        [(mk_date y m d, r5)]).

Definition strptime (s : string) : result datetime :=
  match format_regex_match s with
  | None => Raise ValueError
  | Some (d, rest) =>
      match rest with
      | EmptyString => if valid_date d then Ok (midnight d) else Raise ValueError
      | String _ _ => Raise ValueError
      end
  end.

End PyDate.

(** ** The script's functions *)

Module Triage.

Import PyDate.

(** A date as the script passes it on: the text form, or the [datetime]
    objects of the unfiltered search. *)
Inductive date_arg : Type :=
| DStr (s : string)
| DDateTime (d : datetime).

(** [not x] for an optional command-line string: [None] and the empty
    string are falsy. *)
Definition is_unset (x : option string) : bool :=
  match x with
  | None => true
  | Some EmptyString => true
  | Some (String _ _) => false
  end.

(** Lines 151-157: the default range, with [now] for [datetime.now()].
    The incoming [end_] survives unless yesterday was a Sunday. *)
Definition default_dates (now : datetime) (end_ : option string)
  : result (string * option string) :=
  result_bind (date_add_days (dt_date now) (-1)) (fun yesterday =>
    if negb (weekday yesterday =? 6) then
      Ok (strftime yesterday, end_)
    else
      result_bind (date_add_days yesterday (-2)) (fun friday =>
        Ok (strftime friday, Some (strftime yesterday)))).

(** Lines 161-172: default [end_] to [start], then push it one day on. *)
Definition inclusive_end (start : string) (end_ : option string) : string :=
  match end_ with
  | Some (String c e) => String c e
  | _ => start
  end.

Definition add_one_day (start : string) (end_ : option string)
  : result (date_arg * date_arg) :=
  let end_ := inclusive_end start end_ in
  result_bind (strptime end_) (fun parsed =>
    result_bind (datetime_add_days parsed 1) (fun next =>
      let end_ := strftime (dt_date next) in
      Ok (DStr start, DStr end_))).

Definition check_dates (now : datetime) (start end_ : option string)
    (nodatefilter : bool) : result (date_arg * date_arg) :=
  match start with
  | Some (String c s) => add_one_day (String c s) end_
  | _ =>
      if nodatefilter then Ok (DDateTime datetime_min, DDateTime now)
      else
        result_bind (default_dates now end_) (fun '(start, end_) =>
          add_one_day start end_)
  end.


(** The start and end texts that reach line 159 when the function does
    not return early. *)
Definition dates_in_force (now : datetime) (start end_ : option string)
  : result (string * option string) :=
  match start with
  | Some (String c s) => Ok (String c s, end_)
  | _ => default_dates now end_
  end.

(** *** modified_bugs *)

(** The keyword arguments of [project.searchTasks]; a team is named by
    its Launchpad name. *)
Record query : Type := mk_query {
  modified_since : date_arg;
  structural_subscriber : option string;
  bug_subscriber : option string
}.

(** [{task.self_link: task for task in tasks}]: a later task replaces an
    earlier one with the same link. *)
Definition by_self_link (tasks : list lp_task) : gmap string lp_task :=
  foldl (fun d task => <[self_link task := task]> d) ∅ tasks.

(** Lines 226-229. *)
Definition bugs_in_range (bugs_since_start bugs_since_end : gmap string lp_task)
  : gmap string lp_task :=
  filter (fun kv => bugs_since_end !! kv.1 = None) bugs_since_start.

(** Lines 231-237. The Python value is a set of fresh [Task] objects,
    one per entry of [bugs_in_range], hashed by identity; it is listed
    here in the order [map_to_list] gives the entries. *)
Definition wrap_tasks (in_range already_sub_since_start : gmap string lp_task)
  : list Task.t :=
  (fun kv =>
     Task.create_from_launchpadlib_object kv.2
       (bool_decide (is_Some (already_sub_since_start !! kv.1))))
  <$> map_to_list in_range.

Section Remote.

(** Launchpad: each search answers with a list of tasks and may leave
    the service in another state, so that two searches need not see
    the same bugs. *)
Variable launchpad : Type.
Variable searchTasks : query -> launchpad -> list lp_task * launchpad.

Definition modified_bugs (start_date end_date : date_arg) (lpname : string)
    (bugsubscriber : bool) (lp : launchpad) : list Task.t * launchpad :=
  let team := lpname in
  if bugsubscriber then
    let '(r1, lp) := searchTasks (mk_query start_date None (Some team)) lp in
    let bugs_since_start := by_self_link r1 in
    let '(r2, lp) := searchTasks (mk_query end_date None (Some team)) lp in
    let bugs_since_end := by_self_link r2 in
    let already_sub_since_start : gmap string lp_task := ∅ in
    (wrap_tasks (bugs_in_range bugs_since_start bugs_since_end)
       already_sub_since_start, lp)
  else
    let '(r1, lp) := searchTasks (mk_query start_date (Some team) None) lp in
    let bugs_since_start := by_self_link r1 in
    let '(r2, lp) := searchTasks (mk_query end_date (Some team) None) lp in
    let bugs_since_end := by_self_link r2 in
    let '(r3, lp) :=
      searchTasks (mk_query start_date (Some team) (Some team)) lp in
    let already_sub_since_start := by_self_link r3 in
    (wrap_tasks (bugs_in_range bugs_since_start bugs_since_end)
       already_sub_since_start, lp).

(** The three answers of a run, in the order the searches are made;
    the third is absent in bug-subscriber mode. *)
Definition snapshots (start_date end_date : date_arg) (lpname : string)
    (bugsubscriber : bool) (lp : launchpad)
  : list lp_task * list lp_task * option (list lp_task) :=
  let team := lpname in
  if bugsubscriber then
    let '(r1, lp) := searchTasks (mk_query start_date None (Some team)) lp in
    let '(r2, lp) := searchTasks (mk_query end_date None (Some team)) lp in
    (r1, r2, None)
  else
    let '(r1, lp) := searchTasks (mk_query start_date (Some team) None) lp in
    let '(r2, lp) := searchTasks (mk_query end_date (Some team) None) lp in
    let '(r3, lp) :=
      searchTasks (mk_query start_date (Some team) (Some team)) lp in
    (r1, r2, Some r3).

End Remote.

(** The link a wrapped task answers to. *)
Definition task_link (task : Task.t) : string := self_link (Task.obj task).

End Triage.

(** ** Sample inputs *)

Module Sample.

Import PyDate.

(** Monday 18 July 2016 and Wednesday 20 July 2016, at 09:30. *)
Definition monday : datetime :=
  {| dt_date := mk_date 2016 7 18; hour := 9; minute := 30; second := 0;
     microsecond := 0 |}.

Definition wednesday : datetime :=
  {| dt_date := mk_date 2016 7 20; hour := 9; minute := 30; second := 0;
     microsecond := 0 |}.

Definition title : string :=
  "Bug #123456 in thunderbird (Ubuntu): "
  +:+ String PyStr.dquote "Crashes on startup"
  +:+ String PyStr.dquote EmptyString.

Definition bug : lp_task :=
  {| self_link := "https://api.launchpad.net/1.0/ubuntu/+source/thunderbird/+bug/123456";
     lp_title := title;
     lp_status := "New" |}.

(** A summary with quotes inside: [say "hi" now]. *)
Definition quoted_title : string :=
  "Bug #1 in hello (Ubuntu): say "
  +:+ String PyStr.dquote "hi" +:+ String PyStr.dquote " now".

Definition quoted_bug : lp_task :=
  {| self_link := "https://api.launchpad.net/1.0/ubuntu/+source/hello/+bug/1";
     lp_title := quoted_title;
     lp_status := "Confirmed" |}.

End Sample.

(** ** Printing and the driver *)

Module Report.

(** What [print_bugs] does to the outside: a line handed to
    [logging.info], or a page handed to [webbrowser.open]. *)
Inductive event : Type :=
| Info (line : string)
| Browser (url : string).

(** The body of the loop of [print_bugs] for one task: the events it
    emitted, also when it ends in an exception, and the task with its
    cache as the methods left it. *)
Definition print_bug (open_in_browser shortlinks : bool) (task : Task.t)
  : result unit * list event * Task.t :=
  let '(r, task) := Task.compose_pretty shortlinks task in
  match r with
  | Raise e => (Raise e, [], task)
  | Ok line =>
      if open_in_browser then
        let '(r, task) := Task.url task in
        match r with
        | Raise e => (Raise e, [Info line], task)
        | Ok u => (Ok tt, [Info line; Browser u], task)
        end
      else (Ok tt, [Info line], task)
  end.

(** [print_bugs]: the tasks are taken in the order of the list; an
    exception ends the loop. *)
Fixpoint print_bugs (tasks : list Task.t) (open_in_browser shortlinks : bool)
  : result unit * list event :=
  match tasks with
  | [] => (Ok tt, [])
  | task :: rest =>
      let '(r, out, _) := print_bug open_in_browser shortlinks task in
      match r with
      | Raise e => (Raise e, out)
      | Ok _ =>
          let '(r', out') := print_bugs rest open_in_browser shortlinks in
          (r', out ++ out')
      end
  end.

(** The events of a task whose line is [line] and whose page is [url]. *)
Definition events_of (open_in_browser : bool) (line url : string) : list event :=
  if open_in_browser then [Info line; Browser url] else [Info line].

Section Remote.

Variable launchpad : Type.
Variable searchTasks : Triage.query -> launchpad -> list lp_task * launchpad.

(** [create_bug_list], its log lines left out: the dates are checked,
    then the searches are made. *)
Definition create_bug_list (now : PyDate.datetime)
    (start_date end_date : option string) (lpname : string)
    (bugsubscriber nodatefilter : bool) (lp : launchpad)
  : result (list Task.t) * launchpad :=
  match Triage.check_dates now start_date end_date nodatefilter with
  | Raise e => (Raise e, lp)
  | Ok (start_date, end_date) =>
      let '(tasks, lp) :=
        Triage.modified_bugs launchpad searchTasks start_date end_date lpname
          bugsubscriber lp in
      (Ok tasks, lp)
  end.

End Remote.

End Report.

(** A Launchpad that answers from a script: each search takes the next
    answer of the list, whatever it asks. *)
Module Scripted.

Definition launchpad : Type := list (list lp_task).

Definition searchTasks (q : Triage.query) (lp : launchpad)
  : list lp_task * launchpad :=
  match lp with
  | [] => ([], [])
  | answer :: rest => (answer, rest)
  end.

(** The sample bug twice and the quoted bug since the start; the quoted
    bug since the end; the sample bug already subscribed. *)
Definition script : launchpad :=
  [[Sample.bug; Sample.quoted_bug; Sample.bug]; [Sample.quoted_bug]; [Sample.bug]].

End Scripted.

(** A property that answers from the cache once it has answered. *)
Definition memoised (p : Task.M string) : Prop :=
  forall self v, (p self).1 = Ok v -> p (p self).2 = (Ok v, (p self).2).

(** The spaces of a title: one less than its tokens. *)
Definition count_spaces (title : string) : nat :=
  length (filter (fun a => a = PyStr.space) (PyStr.chars title)).

(** * Properties *)

(** ** Strings and tasks *)

Module PyStrFacts.
Import PyStr.

(** stdpp keeps [+:+] from unfolding; these two equations do it. *)
Lemma append_nil (b : string) : EmptyString +:+ b = b.
Proof. reflexivity. Qed.

Lemma append_cons (x : ascii) (a b : string) :
  String x a +:+ b = String x (a +:+ b).
Proof. reflexivity. Qed.

Lemma append_assoc (a b c : string) : (a +:+ b) +:+ c = a +:+ (b +:+ c).
Proof.
  induction a as [| x a IH]; [reflexivity |].
  by rewrite !append_cons, IH.
Qed.

Lemma chars_remove (c : ascii) (s : string) :
  chars (remove c s) = filter (fun a => a <> c) (chars s).
Proof.
  induction s as [| a s IH]; [reflexivity |].
  cbn [remove chars list_ascii_of_string].
  destruct (Ascii.eqb_spec a c) as [-> | Hne].
  - rewrite filter_cons_False by (intros H; by apply H). exact IH.
  - rewrite filter_cons_True by exact Hne.
    cbn [chars list_ascii_of_string]. f_equal. exact IH.
Qed.

Lemma remove_absent (c : ascii) (s : string) : c ∉ chars (remove c s).
Proof.
  rewrite chars_remove. intros H. apply list_elem_of_filter in H as [H _].
  by apply H.
Qed.

Lemma length_spaces (n : nat) : String.length (spaces n) = n.
Proof. induction n as [| n IH]; simpl; [reflexivity | by rewrite IH]. Qed.

Lemma length_append (a b : string) :
  String.length (a +:+ b) = (String.length a + String.length b)%nat.
Proof.
  induction a as [| x a IH]; [reflexivity |].
  rewrite append_cons. cbn [String.length]. by rewrite IH.
Qed.

(** A field is as wide as asked, or as wide as its content if that is
    longer. *)
Lemma length_ljust (n : nat) (s : string) :
  String.length (ljust n s) = Nat.max n (String.length s).
Proof. unfold ljust. rewrite length_append, length_spaces. lia. Qed.

End PyStrFacts.

Module TaskFacts.
Import Task.

Lemma cache_ok_new (o : lp_task) (sub : bool) :
  cache_ok (create_from_launchpadlib_object o sub).
Proof. split; intros v; cbn; rewrite lookup_empty; discriminate. Qed.

Lemma computes_ret {A : Type} (a : A) : computes (ret a) (fun _ _ => Ok a).
Proof. intros self Hok. cbn. auto. Qed.

Lemma computes_lift {A : Type} (r : result A) : computes (lift r) (fun _ _ => r).
Proof. intros self Hok. cbn. auto. Qed.

Lemma computes_get_subscribed : computes get_subscribed (fun _ sub => Ok sub).
Proof. intros self Hok. cbn. auto. Qed.

Lemma computes_bind {A B : Type} (m : M A) (k : A -> M B)
    (f : lp_task -> option bool -> result A)
    (g : A -> lp_task -> option bool -> result B) :
  computes m f -> (forall a, computes (k a) (g a)) ->
  computes (m ≫= k) (fun o sub => result_bind (f o sub) (fun a => g a o sub)).
Proof.
  intros Hm Hk self Hok.
  destruct (Hm self Hok) as (Hr & Hok' & Ho & Hs).
  unfold mbind, M_bind, bind.
  destruct (m self) as [[a | e] self']; cbn in *; rewrite <- Hr; cbn.
  - destruct (Hk a self' Hok') as (Hr2 & Hok2 & Ho2 & Hs2).
    rewrite Hr2, Ho2, Hs2, Ho, Hs. auto.
  - auto.
Qed.

(** Storing under [key] a value that the invariant allows there. *)
Ltac store_ok Hok :=
  destruct Hok; split;
  (let v := fresh "v" in
   let Hv := fresh "Hv" in
   let Hk := fresh "Hk" in
   intros v Hv; cbn in Hv |- *;
   rewrite lookup_insert in Hv;
   destruct (decide _) as [Hk | Hk] in Hv;
   first [ discriminate Hk
         | congruence
         | injection Hv as <-; auto; fail
         | eauto ]).

(** Run the monad's plumbing on a given instance. *)
Ltac run :=
  unfold mbind, mret, M_bind, M_ret, bind, ret, lift, get_obj,
    get_subscribed, cache_store, cache_load;
  cbn [fst snd _cache obj subscribed].

Lemma computes_title : computes title (fun o _ => Ok (lp_title o)).
Proof.
  intros self Hok. unfold title, try_cache.
  destruct (_cache self !! "title") as [v |] eqn:E.
  - cbn. rewrite (ok_title self Hok v E). auto.
  - run. rewrite lookup_insert_eq. cbn. (split; [| split; [| split]]); auto.
    store_ok Hok.
Qed.

Lemma computes_status : computes status (fun o _ => Ok (lp_status o)).
Proof.
  intros self Hok. unfold status, try_cache.
  destruct (_cache self !! "status") as [v |] eqn:E.
  - cbn. rewrite (ok_status self Hok v E). auto.
  - run. rewrite lookup_insert_eq. cbn. (split; [| split; [| split]]); auto.
    store_ok Hok.
Qed.

Lemma computes_number :
  computes number (fun o _ => parse_number (lp_title o)).
Proof.
  intros self Hok. unfold number, try_cache.
  destruct (_cache self !! "number") as [v |] eqn:E.
  - cbn. rewrite (ok_number self Hok v E). auto.
  - destruct (computes_title self Hok) as (Hr & Hok' & Ho & Hs).
    run. destruct (title self) as [[ti | e] self']; cbn in Hr, Hok', Ho, Hs;
      [| discriminate]. injection Hr as ->.
    rewrite <- Ho.
    destruct (parse_number (lp_title (obj self'))) as [v | e] eqn:P; cbn.
    + rewrite lookup_insert_eq. cbn. (split; [| split; [| split]]); auto.
      store_ok Hok'.
    + auto.
Qed.

Lemma computes_src : computes src (fun o _ => parse_src (lp_title o)).
Proof.
  intros self Hok. unfold src, try_cache.
  destruct (_cache self !! "src") as [v |] eqn:E.
  - cbn. rewrite (ok_src self Hok v E). auto.
  - destruct (computes_title self Hok) as (Hr & Hok' & Ho & Hs).
    run. destruct (title self) as [[ti | e] self']; cbn in Hr, Hok', Ho, Hs;
      [| discriminate]. injection Hr as ->.
    rewrite <- Ho.
    destruct (parse_src (lp_title (obj self'))) as [v | e] eqn:P; cbn.
    + rewrite lookup_insert_eq. cbn. (split; [| split; [| split]]); auto.
      store_ok Hok'.
    + auto.
Qed.

Lemma computes_short_title :
  computes short_title (fun o _ => Ok (parse_short_title (lp_title o))).
Proof.
  intros self Hok. unfold short_title, try_cache.
  destruct (_cache self !! "short_title") as [v |] eqn:E.
  - cbn. rewrite (ok_short_title self Hok v E). auto.
  - destruct (computes_title self Hok) as (Hr & Hok' & Ho & Hs).
    run. destruct (title self) as [[ti | e] self']; cbn in Hr, Hok', Ho, Hs;
      [| discriminate]. injection Hr as ->.
    rewrite <- Ho. cbn.
    rewrite lookup_insert_eq. cbn. (split; [| split; [| split]]); auto.
    store_ok Hok'.
Qed.

Lemma computes_url :
  computes url (fun o _ =>
    result_bind (parse_number (lp_title o)) (fun n => Ok (LONG_URL_ROOT +:+ n))).
Proof.
  unfold url.
  apply (computes_bind number _ _ (fun n _ _ => Ok (LONG_URL_ROOT +:+ n)));
    [apply computes_number | intros n; apply computes_ret].
Qed.

Lemma computes_shortlink :
  computes shortlink (fun o _ =>
    result_bind (parse_number (lp_title o)) (fun n => Ok (SHORTLINK_ROOT +:+ n))).
Proof.
  unfold shortlink.
  apply (computes_bind number _ _ (fun n _ _ => Ok (SHORTLINK_ROOT +:+ n)));
    [apply computes_number | intros n; apply computes_ret].
Qed.

Lemma computes_ext {A : Type} (m : M A) (f g : lp_task -> option bool -> result A) :
  (forall o sub, f o sub = g o sub) -> computes m f -> computes m g.
Proof.
  intros E H self Hok. rewrite <- E. apply H, Hok.
Qed.

Lemma computes_compose_pretty (shortlinks : bool) :
  computes (compose_pretty shortlinks) (pretty_line shortlinks).
Proof.
  unfold compose_pretty.
  destruct shortlinks; (eapply computes_ext; cycle 1);
    [ refine (computes_bind _ _ _ _
                (computes_bind _ _ _ _ computes_shortlink
                   (fun s => computes_ret _)) _)
    | | refine (computes_bind _ _ _ _
                  (computes_bind _ _ _ _ computes_url
                     (fun s => computes_ret _)) _)
    | ].
  1, 3: intros bug_url;
    refine (computes_bind _ _ _ _ computes_get_subscribed _); intros sub;
    refine (computes_bind _ _ _ _ computes_status _); intros st;
    refine (computes_bind _ _ _ _ computes_src _); intros sr;
    refine (computes_bind _ _ _ _ computes_short_title _); intros sh;
    exact (computes_ret _).
  all: intros o sub; unfold pretty_line; cbn;
    destruct (parse_number (lp_title o)) as [n | e]; cbn;
      try reflexivity;
      destruct (parse_src (lp_title o)) as [sr | e]; cbn; reflexivity.
Qed.

(** [title] never raises. *)
Lemma title_returns (self : t) : exists v self', title self = (Ok v, self').
Proof.
  unfold title, try_cache. destruct (_cache self !! "title") as [v |].
  - eauto.
  - run. rewrite lookup_insert_eq. eauto.
Qed.

(** After a successful [number] the value sits in the cache. *)
Lemma number_memo (self : t) (n : string) :
  (number self).1 = Ok n -> _cache (number self).2 !! "number" = Some n.
Proof.
  unfold number, try_cache.
  destruct (_cache self !! "number") as [v |] eqn:E.
  - cbn. intros [= <-]. exact E.
  - destruct (title_returns self) as (ti & self' & Ht).
    run. rewrite Ht.
    destruct (parse_number ti) as [v | e]; cbn; [| discriminate].
    rewrite lookup_insert_eq. cbn. intros [= <-]. apply lookup_insert_eq.
Qed.

Lemma number_hit (self : t) (n : string) :
  _cache self !! "number" = Some n -> number self = (Ok n, self).
Proof. intros H. unfold number, try_cache. by rewrite H. Qed.

(** The value of a method on a sound instance. *)
Lemma computes_value {A : Type} (m : M A)
    (f : lp_task -> option bool -> result A) (self : t) :
  computes m f -> cache_ok self -> (m self).1 = f (obj self) (subscribed self).
Proof. intros H Hok. apply H, Hok. Qed.

(** C6: for the title [Bug #123456 in thunderbird (Ubuntu): "Crashes on
    startup"], [number] is [123456] (the second space-separated token
    without its [#]), [src] is [thunderbird] (the fourth token) and
    [short_title] is [Crashes on startup] (the tokens from index 5 on,
    joined by spaces, quotes removed); this on a new instance and on one
    whose cache is already filled. *)
Theorem sample_title_fields (self : t) :
  cache_ok self -> lp_title (obj self) = Sample.title ->
  PyStr.split PyStr.space Sample.title
  = ["Bug"; "#123456"; "in"; "thunderbird"; "(Ubuntu):";
     String PyStr.dquote "Crashes"; "on"; "startup" +:+ String PyStr.dquote EmptyString]
  /\ (number self).1 = Ok "123456"
  /\ (src self).1 = Ok "thunderbird"
  /\ (short_title self).1 = Ok "Crashes on startup"
  /\ (short_title (src (number self).2).2).1 = Ok "Crashes on startup".
Proof.
  intros Hok Ht. split; [reflexivity |].
  rewrite (computes_value _ _ self computes_number Hok).
  rewrite (computes_value _ _ self computes_src Hok).
  rewrite (computes_value _ _ self computes_short_title Hok).
  destruct (computes_number self Hok) as (_ & Hok1 & Ho1 & _).
  destruct (computes_src _ Hok1) as (_ & Hok2 & Ho2 & _).
  rewrite (computes_value _ _ _ computes_short_title Hok2).
  rewrite Ho2, Ho1, Ht. repeat split; reflexivity.
Qed.

Lemma sample_title_fields_witness :
  PyStr.split PyStr.space Sample.title
  = ["Bug"; "#123456"; "in"; "thunderbird"; "(Ubuntu):";
     String PyStr.dquote "Crashes"; "on"; "startup" +:+ String PyStr.dquote EmptyString]
  /\ (number (create_from_launchpadlib_object Sample.bug false)).1 = Ok "123456"
  /\ (src (create_from_launchpadlib_object Sample.bug false)).1 = Ok "thunderbird"
  /\ (short_title (create_from_launchpadlib_object Sample.bug false)).1
     = Ok "Crashes on startup"
  /\ (short_title
        (src (number (create_from_launchpadlib_object Sample.bug false)).2).2).1
     = Ok "Crashes on startup".
Proof.
  apply (sample_title_fields (create_from_launchpadlib_object Sample.bug false)).
  - apply cache_ok_new.
  - reflexivity.
Defined.

(** C9: [url] is [LONG_URL_ROOT] followed by [number] and [shortlink] is
    [SHORTLINK_ROOT] followed by [number], for one and the same
    [number], whether the two are read from the same state or one after
    the other; when [number] raises, both raise. *)
Theorem url_shortlink_same_number (self : t) :
  match (number self).1 with
  | Ok n =>
      (url self).1 = Ok (LONG_URL_ROOT +:+ n)
      /\ (shortlink self).1 = Ok (SHORTLINK_ROOT +:+ n)
      /\ (shortlink (url self).2).1 = Ok (SHORTLINK_ROOT +:+ n)
      /\ (url (shortlink self).2).1 = Ok (LONG_URL_ROOT +:+ n)
  | Raise e => (url self).1 = Raise e /\ (shortlink self).1 = Raise e
  end.
Proof.
  pose proof (number_memo self) as Hm.
  unfold url, shortlink. run.
  destruct (number self) as [[n | e] self'] eqn:E; cbn in *; [| auto].
  rewrite (number_hit self' n (Hm n eq_refl)). cbn. auto.
Qed.

(** C10: [short_title] is the tail of the title, from token 5 on, with
    every double quote removed, those inside the summary included: no
    double quote is left, and the other characters stay in order. For
    the summary [say "hi" now] the result is [say hi now]. *)
Theorem short_title_strips_every_quote (self : t) :
  cache_ok self ->
  let tail :=
    PyStr.join " "
      (PyStr.slice_from (PyStr.split PyStr.space (lp_title (obj self))) 5) in
  exists v,
    (short_title self).1 = Ok v
    /\ (PyStr.dquote ∉ PyStr.chars v)
    /\ PyStr.chars v = filter (fun a => a <> PyStr.dquote) (PyStr.chars tail)
    /\ (short_title (create_from_launchpadlib_object Sample.quoted_bug false)).1
       = Ok "say hi now".
Proof.
  intros Hok tail.
  exists (parse_short_title (lp_title (obj self))).
  split; [apply (computes_value _ _ self computes_short_title Hok) |].
  split; [apply PyStrFacts.remove_absent |].
  split; [apply PyStrFacts.chars_remove | reflexivity].
Qed.

Lemma short_title_strips_every_quote_witness :
  exists v,
    (short_title (create_from_launchpadlib_object Sample.quoted_bug false)).1 = Ok v
    /\ (PyStr.dquote ∉ PyStr.chars v)
    /\ PyStr.chars v
       = filter (fun a => a <> PyStr.dquote)
           (PyStr.chars
              (PyStr.join " "
                 (PyStr.slice_from
                    (PyStr.split PyStr.space Sample.quoted_title) 5)))
    /\ (short_title (create_from_launchpadlib_object Sample.quoted_bug false)).1
       = Ok "say hi now".
Proof.
  apply (short_title_strips_every_quote
           (create_from_launchpadlib_object Sample.quoted_bug false)).
  apply cache_ok_new.
Defined.

(** C7 as stated fails on the sample bug: its line does not start with
    [LP: #123456] in a field of 13 characters followed by [ - *New], nor
    with the field of 12 characters followed by [ - *New]. *)
Lemma compose_pretty_not_13_wide :
  let self := create_from_launchpadlib_object Sample.bug true in
  (number self).1 = Ok "123456"
  /\ (compose_pretty true self).1
     = Ok "LP: #123456  - *(New)           [thunderbird]    - Crashes on startup"
  /\ ~ (exists rest,
          (compose_pretty true self).1
          = Ok (PyStr.ljust 13 "LP: #123456" +:+ " - " +:+ "*"
                +:+ lp_status Sample.bug +:+ rest))
  /\ ~ (exists rest,
          (compose_pretty true self).1
          = Ok (PyStr.ljust 12 "LP: #123456" +:+ " - " +:+ "*"
                +:+ lp_status Sample.bug +:+ rest)).
Proof.
  cbv zeta. split; [reflexivity |]. split; [reflexivity |].
  split; intros [rest H]; vm_compute in H; discriminate H.
Qed.

(** C7, amended: for a task whose number is [123456] and whose
    [subscribed] is true, [compose_pretty] with shortlinks gives a line
    that starts with [LP: #123456] left-justified in a field of 12
    characters (7 plus the length of [LP: #]), then [ - ], then the
    asterisk and the status between parentheses, [*(status)]. *)
Theorem compose_pretty_shortlink_field (self : t) (sr : string) :
  cache_ok self ->
  subscribed self = Some true ->
  (number self).1 = Ok "123456" ->
  (src self).1 = Ok sr ->
  let field :=
    PyStr.ljust (BUG_NUMBER_LENGTH + String.length SHORTLINK_ROOT)
      (SHORTLINK_ROOT +:+ "123456") in
  String.length field = 12%nat
  /\ field = "LP: #123456 "
  /\ exists rest,
       (compose_pretty true self).1
       = Ok (field +:+ " - " +:+ "*(" +:+ lp_status (obj self) +:+ ")" +:+ rest).
Proof.
  intros Hok Hsub Hn Hs field.
  split; [reflexivity |]. split; [reflexivity |].
  rewrite (computes_value _ _ self computes_number Hok) in Hn.
  rewrite (computes_value _ _ self computes_src Hok) in Hs.
  rewrite (computes_value _ _ self (computes_compose_pretty true) Hok).
  unfold pretty_line. rewrite Hn, Hs, Hsub. cbn [result_bind truthy].
  fold field. unfold PyStr.ljust.
  rewrite !PyStrFacts.append_assoc.
  eexists. reflexivity.
Qed.

Lemma compose_pretty_shortlink_field_witness :
  String.length
    (PyStr.ljust (BUG_NUMBER_LENGTH + String.length SHORTLINK_ROOT)
       (SHORTLINK_ROOT +:+ "123456")) = 12%nat
  /\ PyStr.ljust (BUG_NUMBER_LENGTH + String.length SHORTLINK_ROOT)
       (SHORTLINK_ROOT +:+ "123456") = "LP: #123456 "
  /\ exists rest,
       (compose_pretty true (create_from_launchpadlib_object Sample.bug true)).1
       = Ok (PyStr.ljust (BUG_NUMBER_LENGTH + String.length SHORTLINK_ROOT)
               (SHORTLINK_ROOT +:+ "123456")
             +:+ " - " +:+ "*(" +:+ lp_status Sample.bug +:+ ")" +:+ rest).
Proof.
  apply (compose_pretty_shortlink_field
           (create_from_launchpadlib_object Sample.bug true) "thunderbird").
  - apply cache_ok_new.
  - reflexivity.
  - reflexivity.
  - reflexivity.
Defined.

End TaskFacts.

(** ** Calendar arithmetic *)

Module PyDateFacts.

Import PyDate.

Lemma days_before_year_closed n400 n100 n4 n1 :
  0 <= n100 < 4 -> 0 <= n4 < 25 -> 0 <= n1 < 4 ->
  _days_before_year (n400 * 400 + n100 * 100 + n4 * 4 + n1 + 1)
  = n400 * _DI400Y + n100 * _DI100Y + n4 * _DI4Y + n1 * 365.
Proof.
  intros. unfold _days_before_year, _DI400Y, _DI100Y, _DI4Y.
  Z.to_euclidean_division_equations. lia.
Qed.

Lemma is_leap_closed n400 n100 n4 n1 :
  0 <= n100 < 4 -> 0 <= n4 < 25 -> 0 <= n1 < 4 ->
  _is_leap (n400 * 400 + n100 * 100 + n4 * 4 + n1 + 1)
  = (n1 =? 3) && (negb (n4 =? 24) || (n100 =? 3)).
Proof.
  intros. unfold _is_leap.
  destruct (Z.eqb_spec n1 3), (Z.eqb_spec n4 24), (Z.eqb_spec n100 3);
    repeat match goal with
           | |- context [ (?a =? ?b) ] => destruct (Z.eqb_spec a b)
           end; simpl; try reflexivity;
    Z.to_euclidean_division_equations; lia.
Qed.

(** Evaluate table look-ups and tests at literal months. *)
Ltac eval_month_tables :=
  repeat match goal with
         | |- context [ table ?l ?k ] =>
             let v := eval vm_compute in (table l k) in
             change (table l k) with v
         | |- context [ Z.pos ?a - 1 ] =>
             let v := eval vm_compute in (Z.pos a - 1) in
             change (Z.pos a - 1) with v
         | |- context [ Z.ltb (Z.pos ?a) (Z.pos ?b) ] =>
             let v := eval vm_compute in (Z.ltb (Z.pos a) (Z.pos b)) in
             change (Z.ltb (Z.pos a) (Z.pos b)) with v
         | |- context [ Z.eqb (Z.pos ?a) (Z.pos ?b) ] =>
             let v := eval vm_compute in (Z.eqb (Z.pos a) (Z.pos b)) in
             change (Z.eqb (Z.pos a) (Z.pos b)) with v
         | |- context [ Z.eqb 0 (Z.pos ?b) ] =>
             change (Z.eqb 0 (Z.pos b)) with false
         end;
  cbn [andb].

Lemma month_day_spec (leapyear : bool) (n : Z) :
  0 <= n < 365 + (if leapyear then 1 else 0) ->
  let '(m, d) := month_day leapyear n in
  1 <= m <= 12
  /\ 1 <= d <= (if (m =? 2) && leapyear then 29 else table _DAYS_IN_MONTH m)
  /\ table _DAYS_BEFORE_MONTH m + (if (2 <? m) && leapyear then 1 else 0) + d = n + 1.
Proof.
  intros Hn. unfold month_day. rewrite Z.shiftr_div_pow2 by lia.
  change (2 ^ 5) with 32.
  assert (Hm : 1 <= (n + 50) / 32 <= 12)
    by (destruct leapyear; Z.to_euclidean_division_equations; lia).
  remember ((n + 50) / 32) as m eqn:Em.
  assert (Hb : 32 * m <= n + 50 < 32 * m + 32)
    by (subst m; Z.to_euclidean_division_equations; lia).
  clear Em.
  assert (Hc : m = 1 \/ m = 2 \/ m = 3 \/ m = 4 \/ m = 5 \/ m = 6 \/ m = 7
               \/ m = 8 \/ m = 9 \/ m = 10 \/ m = 11 \/ m = 12) by lia.
  destruct leapyear;
    repeat (destruct Hc as [-> | Hc]); try subst m;
    eval_month_tables;
    match goal with
    | |- context [ n <? ?p ] => destruct (Z.ltb_spec n p)
    end; eval_month_tables; lia.
Qed.

Lemma ord2ymd_month_day (y n : Z) (leapyear : bool) (P : date -> Prop) :
  P (let '(m, d) := month_day leapyear n in mk_date y m d) ->
  P (let m := Z.shiftr (n + 50) 5 in
     let preceding :=
       table _DAYS_BEFORE_MONTH m + (if (2 <? m) && leapyear then 1 else 0) in
     if n <? preceding then
       let m' := m - 1 in
       let preceding' :=
         preceding
         - (table _DAYS_IN_MONTH m' + (if (m' =? 2) && leapyear then 1 else 0)) in
       mk_date y m' (n - preceding' + 1)
     else mk_date y m (n - preceding + 1)).
Proof.
  unfold month_day. cbv zeta.
  destruct (n <? _); auto.
Qed.

Lemma ord2ymd_spec (n : Z) :
  1 <= n -> well_formed (_ord2ymd n) /\ toordinal (_ord2ymd n) = n.
Proof.
  intros Hn. unfold _ord2ymd. cbv zeta.
  remember ((n - 1) / _DI400Y) as n400 eqn:E400.
  remember ((n - 1) mod _DI400Y) as r400 eqn:R400.
  remember (r400 / _DI100Y) as n100 eqn:E100.
  remember (r400 mod _DI100Y) as r100 eqn:R100.
  remember (r100 / _DI4Y) as n4 eqn:E4.
  remember (r100 mod _DI4Y) as r4 eqn:R4.
  remember (r4 / 365) as n1 eqn:E1.
  remember (r4 mod 365) as r1 eqn:R1.
  assert (Hdec : n - 1 = n400 * _DI400Y + n100 * _DI100Y + n4 * _DI4Y + n1 * 365 + r1
                 /\ 0 <= n400 /\ 0 <= n100 <= 4 /\ 0 <= n4 <= 24 /\ 0 <= n1 <= 4
                 /\ 0 <= r1 < 365
                 /\ (n100 = 4 -> n4 = 0 /\ n1 = 0 /\ r1 = 0)
                 /\ (n1 = 4 -> r1 = 0 /\ n4 < 24)).
  { subst. unfold _DI400Y, _DI100Y, _DI4Y.
    Z.to_euclidean_division_equations. lia. }
  clear E400 R400 E100 R100 E4 R4 E1 R1 r400 r100 r4.
  destruct Hdec as (Hsum & H400 & H100 & H4 & H1 & Hr & Hc100 & Hc1).
  destruct (Z.eqb_spec n1 4) as [-> | Hn1]; cbn [orb].
  - destruct (Hc1 eq_refl) as [-> H4']. unfold well_formed, toordinal, _ymd2ord; cbn [year month day].
    assert (H100' : n100 <> 4) by (intros ->; destruct (Hc100 eq_refl); lia).
    replace (n400 * 400 + 1 + n100 * 100 + n4 * 4 + 4 - 1)
      with (n400 * 400 + n100 * 100 + n4 * 4 + 3 + 1) by lia.
    unfold _days_in_month, _days_before_month.
    rewrite days_before_year_closed, is_leap_closed by lia.
    eval_month_tables.
    replace (n4 =? 24) with false by (symmetry; apply Z.eqb_neq; lia).
    cbn. unfold _DI400Y, _DI100Y, _DI4Y in *. lia.
  - destruct (Z.eqb_spec n100 4) as [-> | Hn100].
    + destruct (Hc100 eq_refl) as (-> & -> & ->).
      unfold well_formed, toordinal, _ymd2ord; cbn [year month day].
      replace (n400 * 400 + 1 + 4 * 100 + 0 * 4 + 0 - 1)
        with (n400 * 400 + 3 * 100 + 24 * 4 + 3 + 1) by lia.
      unfold _days_in_month, _days_before_month.
      rewrite days_before_year_closed, is_leap_closed by lia.
      eval_month_tables.
      cbn. unfold _DI400Y, _DI100Y, _DI4Y in *. lia.
    + apply ord2ymd_month_day.
      pose proof (month_day_spec ((n1 =? 3) && (negb (n4 =? 24) || (n100 =? 3))) r1) as Hmd.
      destruct (month_day _ r1) as [m d].
      rewrite <- (is_leap_closed n400 n100 n4 n1) in * by lia.
      replace (n400 * 400 + 1 + n100 * 100 + n4 * 4 + n1)
        with (n400 * 400 + n100 * 100 + n4 * 4 + n1 + 1) by lia.
      destruct Hmd as (Hm & Hd & He).
      { destruct (_is_leap _); lia. }
      unfold well_formed, toordinal, _ymd2ord, _days_in_month, _days_before_month.
      cbn [year month day].
      rewrite days_before_year_closed by lia.
      repeat split; try lia.
Qed.

Lemma days_before_year_mono (y1 y2 : Z) :
  y1 <= y2 -> _days_before_year y1 <= _days_before_year y2.
Proof.
  intros H. unfold _days_before_year. cbv zeta.
  Z.to_euclidean_division_equations. lia.
Qed.

Lemma days_before_year_succ (y : Z) :
  _days_before_year (y + 1)
  = _days_before_year y + 365 + (if _is_leap y then 1 else 0).
Proof.
  unfold _days_before_year, _is_leap. cbv zeta.
  repeat match goal with
         | |- context [ (?a =? ?b) ] => destruct (Z.eqb_spec a b)
         end; cbn [andb orb negb];
    Z.to_euclidean_division_equations; lia.
Qed.

Lemma month_cases (m : Z) :
  1 <= m <= 12 ->
  m = 1 \/ m = 2 \/ m = 3 \/ m = 4 \/ m = 5 \/ m = 6 \/ m = 7
  \/ m = 8 \/ m = 9 \/ m = 10 \/ m = 11 \/ m = 12.
Proof. lia. Qed.

Ltac each_month H :=
  apply month_cases in H;
  repeat (destruct H as [-> | H]); try subst.

(** Within a year the ordinal lies strictly after the year's start and
    does not pass its last day. *)
Lemma toordinal_in_year (d : date) :
  well_formed d ->
  _days_before_year (year d) < toordinal d <= _days_before_year (year d + 1).
Proof.
  intros (Hy & Hm & Hd). rewrite days_before_year_succ.
  unfold toordinal, _ymd2ord, _days_before_month, _days_in_month in *.
  destruct d as [y m dd]; cbn [year month day] in *.
  destruct (_is_leap y); each_month Hm; revert Hd; eval_month_tables; lia.
Qed.

Lemma toordinal_inj (d1 d2 : date) :
  well_formed d1 -> well_formed d2 -> toordinal d1 = toordinal d2 -> d1 = d2.
Proof.
  intros W1 W2 E.
  pose proof (toordinal_in_year d1 W1) as B1.
  pose proof (toordinal_in_year d2 W2) as B2.
  assert (Ey : year d1 = year d2).
  { destruct (Z.lt_trichotomy (year d1) (year d2)) as [L | [L | L]]; [| exact L |].
    - pose proof (days_before_year_mono (year d1 + 1) (year d2)). lia.
    - pose proof (days_before_year_mono (year d2 + 1) (year d1)). lia. }
  destruct d1 as [y1 m1 dd1], d2 as [y2 m2 dd2]; cbn [year month day] in *.
  subst y2. clear B1 B2.
  destruct W1 as (_ & Hm1 & Hd1), W2 as (_ & Hm2 & Hd2).
  unfold toordinal, _ymd2ord, _days_before_month, _days_in_month in *.
  cbn [year month day] in *.
  assert (m1 = m2 /\ dd1 = dd2) as [-> ->]; [| reflexivity].
  revert Hd1 Hd2 E.
  destruct (_is_leap y1); each_month Hm1; each_month Hm2;
    eval_month_tables; lia.
Qed.

Lemma toordinal_fromordinal (n : Z) : 1 <= n -> toordinal (fromordinal n) = n.
Proof. intros H. apply ord2ymd_spec, H. Qed.

Lemma fromordinal_toordinal (d : date) :
  well_formed d -> fromordinal (toordinal d) = d.
Proof.
  intros W. pose proof (toordinal_in_year d W) as B.
  assert (H1 : 1 <= toordinal d).
  { destruct W as (Hy & _).
    pose proof (days_before_year_mono 1 (year d) Hy) as M.
    change (_days_before_year 1) with 0 in M. lia. }
  destruct (ord2ymd_spec _ H1) as [W' E].
  apply toordinal_inj; assumption.
Qed.

Lemma valid_date_well_formed (d : date) :
  valid_date d = true <-> well_formed d /\ year d <= MAXYEAR.
Proof.
  unfold valid_date, well_formed, MINYEAR, MAXYEAR.
  rewrite !andb_true_iff, !Z.leb_le. lia.
Qed.

Lemma fromordinal_valid (n : Z) :
  1 <= n <= _MAXORDINAL -> valid_date (fromordinal n) = true.
Proof.
  intros [H1 H2]. apply valid_date_well_formed.
  destruct (ord2ymd_spec n H1) as [W E]. split; [exact W |].
  pose proof (toordinal_in_year _ W) as B. unfold fromordinal.
  rewrite E in B. unfold MAXYEAR, _MAXORDINAL in *.
  destruct (Z_le_gt_dec (year (_ord2ymd n)) 9999) as [L | G]; [exact L |].
  pose proof (days_before_year_mono 10000 (year (_ord2ymd n))) as M.
  change (_days_before_year 10000) with 3652059 in M. lia.
Qed.

Lemma toordinal_valid_range (d : date) :
  valid_date d = true -> 1 <= toordinal d <= _MAXORDINAL.
Proof.
  intros V. apply valid_date_well_formed in V as [W Y].
  pose proof (toordinal_in_year d W) as B.
  destruct W as (Hy & _).
  pose proof (days_before_year_mono 1 (year d) Hy) as M1.
  pose proof (days_before_year_mono (year d + 1) 10000) as M2.
  change (_days_before_year 1) with 0 in M1.
  change (_days_before_year 10000) with 3652059 in M2.
  unfold MAXYEAR, _MAXORDINAL in *. lia.
Qed.

(** *** The text form round trip *)

Lemma digit_val_digit_char (k : Z) :
  0 <= k <= 9 -> digit_val (digit_char k) = Some k.
Proof.
  intros H.
  assert (C : k = 0 \/ k = 1 \/ k = 2 \/ k = 3 \/ k = 4 \/ k = 5 \/ k = 6
              \/ k = 7 \/ k = 8 \/ k = 9) by lia.
  repeat (destruct C as [-> | C]); try subst k; reflexivity.
Qed.

Lemma re_Y_pad4 (y : Z) (r : string) :
  0 <= y <= 9999 -> re_Y (pad4 y +:+ r) = [(y, r)].
Proof.
  intros H. unfold pad4, pad2. change (re_Y (String (digit_char (y / 1000))
       (String (digit_char (y / 100 mod 10))
          (String (digit_char (y mod 100 / 10))
             (String (digit_char (y mod 100 mod 10)) r)))) = [(y, r)]).
  cbn [re_Y].
  rewrite !digit_val_digit_char
    by (Z.to_euclidean_division_equations; lia).
  do 2 f_equal. Z.to_euclidean_division_equations; lia.
Qed.

(** Lists a positive up to five bits, leaving the bound to [lia]. *)
Ltac enum_small z :=
  destruct z as [| z | z]; try lia;
  do 5 (try (destruct z as [z | z |]; try lia)).

Lemma match_month_day (y m dd : Z) :
  1 <= m <= 12 -> 1 <= dd <= 31 ->
  head (r2 ← literal minus_sign ("-" +:+ pad2 m +:+ "-" +:+ pad2 dd);
        '(m', r3) ← re_m r2;
        r4 ← literal minus_sign r3;
        '(d', r5) ← re_d r4;
        [(mk_date y m' d', r5)])
  = Some (mk_date y m dd, EmptyString).
Proof.
  intros Hm Hd. enum_small m; enum_small dd; reflexivity.
Qed.

Lemma year_text_padded (y : Z) : 1000 <= y -> year_text y = pad4 y.
Proof.
  intros H. unfold year_text.
  destruct (Z.ltb_spec y 10); [lia |].
  destruct (Z.ltb_spec y 100); [lia |].
  destruct (Z.ltb_spec y 1000); [lia | reflexivity].
Qed.

(** The text always starts with a digit of the year. *)
Lemma strftime_cons (d : date) : exists c r, strftime d = String c r.
Proof.
  unfold strftime, year_text.
  destruct (year d <? 10); [by eexists _, _ |].
  destruct (year d <? 100); [by eexists _, _ |].
  destruct (year d <? 1000); by eexists _, _.
Qed.

Lemma day_in_month_range (d : date) :
  valid_date d = true -> 1 <= month d <= 12 /\ 1 <= day d <= 31.
Proof.
  intros V. apply valid_date_well_formed in V as [(Hy & Hm & Hd) HY].
  destruct d as [y m dd]; cbn [year month day] in *. split; [exact Hm |].
  revert Hd. unfold _days_in_month.
  destruct (_is_leap _); each_month Hm; eval_month_tables; lia.
Qed.

(** From the year 1000 on, the text of a date reads back as that date. *)
Lemma strptime_strftime (d : date) :
  valid_date d = true -> 1000 <= year d ->
  strptime (strftime d) = Ok (midnight d).
Proof.
  intros V H1000. unfold strptime, format_regex_match, strftime.
  rewrite year_text_padded by exact H1000.
  destruct (day_in_month_range d V) as [Hm Hd'].
  pose proof V as V'. apply valid_date_well_formed in V' as [_ HY].
  destruct d as [y m dd]; cbn [year month day] in *.
  unfold MAXYEAR in HY.
  rewrite re_Y_pad4 by lia. cbn [mbind list_bind].
  rewrite app_nil_r.
  rewrite (match_month_day y m dd) by assumption.
  rewrite V. reflexivity.
Qed.

(** A year on fewer than four digits is no match for [\d\d\d\d]. *)
Lemma re_Y_short (y m dd : Z) :
  1 <= y < 1000 ->
  re_Y (year_text y +:+ "-" +:+ pad2 m +:+ "-" +:+ pad2 dd) = [].
Proof.
  intros H. unfold year_text, pad2.
  destruct (Z.ltb_spec y 10); [| destruct (Z.ltb_spec y 100);
    [| destruct (Z.ltb_spec y 1000); [| lia]]].
  - change (re_Y (String (digit_char y)
              (String minus_sign
                 (String (digit_char (m / 10))
                    (String (digit_char (m mod 10))
                       ("-" +:+ String (digit_char (dd / 10))
                          (String (digit_char (dd mod 10)) EmptyString)))))) = []).
    cbn [re_Y]. rewrite digit_val_digit_char by lia. reflexivity.
  - change (re_Y (String (digit_char (y / 10))
              (String (digit_char (y mod 10))
                 (String minus_sign
                    (String (digit_char (m / 10))
                       (String (digit_char (m mod 10))
                          ("-" +:+ String (digit_char (dd / 10))
                             (String (digit_char (dd mod 10)) EmptyString))))))) = []).
    cbn [re_Y].
    rewrite !digit_val_digit_char by (Z.to_euclidean_division_equations; lia).
    reflexivity.
  - change (re_Y (String (digit_char (y / 100))
              (String (digit_char (y mod 100 / 10))
                 (String (digit_char (y mod 100 mod 10))
                    (String minus_sign
                       (String (digit_char (m / 10))
                          (String (digit_char (m mod 10))
                             ("-" +:+ String (digit_char (dd / 10))
                                (String (digit_char (dd mod 10)) EmptyString)))))))) = []).
    cbn [re_Y].
    rewrite !digit_val_digit_char by (Z.to_euclidean_division_equations; lia).
    reflexivity.
Qed.

(** Before the year 1000 the text of a date does not read back. *)
Lemma strptime_strftime_early (d : date) :
  valid_date d = true -> year d < 1000 ->
  strptime (strftime d) = Raise ValueError.
Proof.
  intros V H1000. unfold strptime, format_regex_match, strftime.
  apply valid_date_well_formed in V as [(Hy & _) _].
  rewrite re_Y_short by lia. reflexivity.
Qed.

End PyDateFacts.

(** ** The script's functions *)

Module TriageFacts.

Import PyDate PyDateFacts Triage.

(** *** Parsing *)

Lemma strptime_Ok_inv (s : string) (dt : datetime) :
  strptime s = Ok dt ->
  valid_date (dt_date dt) = true /\ dt = midnight (dt_date dt).
Proof.
  unfold strptime.
  destruct (format_regex_match s) as [[d [| c rest]] |]; try discriminate.
  destruct (valid_date d) eqn:V; [| discriminate].
  intros [= <-]. auto.
Qed.

Lemma strptime_Raise (s : string) (e : exn) :
  strptime s = Raise e -> e = ValueError.
Proof.
  unfold strptime.
  destruct (format_regex_match s) as [[d [| c rest]] |];
    try destruct (valid_date d); congruence.
Qed.

Lemma strptime_not_ok (s : string) :
  is_ok (strptime s) = false -> strptime s = Raise ValueError.
Proof.
  destruct (strptime s) as [dt | e] eqn:E; [discriminate |].
  intros _. by rewrite (strptime_Raise s e E).
Qed.

(** *** One day on *)

Lemma date_add_days_ok (d : date) (k : Z) :
  0 < toordinal d + k <= _MAXORDINAL ->
  date_add_days d k = Ok (fromordinal (toordinal d + k)).
Proof.
  intros [H1 H2]. unfold date_add_days. cbv zeta.
  destruct (Z.ltb_spec 0 (toordinal d + k)); [| lia].
  destruct (Z.leb_spec (toordinal d + k) _MAXORDINAL); [reflexivity | lia].
Qed.


(** From the year 1000 on, the text of a day in range reads back as that
    day. *)
Lemma strptime_strftime_fromordinal (n : Z) :
  1 <= n <= _MAXORDINAL -> 1000 <= year (fromordinal n) ->
  strptime (strftime (fromordinal n)) = Ok (midnight (fromordinal n)).
Proof. intros H Hy. apply strptime_strftime; [apply fromordinal_valid, H | exact Hy]. Qed.



Lemma add_one_day_ok (start : string) (end_ : option string) (d : date) :
  strptime (inclusive_end start end_) = Ok (midnight d) ->
  0 < toordinal d + 1 <= _MAXORDINAL ->
  add_one_day start end_
  = Ok (DStr start, DStr (strftime (fromordinal (toordinal d + 1)))).
Proof.
  intros E H. unfold add_one_day, datetime_add_days. cbv zeta.
  rewrite E. cbn [result_bind midnight dt_date].
  by rewrite (date_add_days_ok d 1 H).
Qed.

Lemma add_one_day_raises (start : string) (end_ : option string) :
  is_ok (strptime (inclusive_end start end_)) = false ->
  add_one_day start end_ = Raise ValueError.
Proof.
  intros H. unfold add_one_day. cbv zeta.
  by rewrite (strptime_not_ok _ H).
Qed.

Lemma check_dates_in_force (now : datetime) (start end_ : option string)
    (nodatefilter : bool) :
  is_unset start && nodatefilter = false ->
  check_dates now start end_ nodatefilter
  = result_bind (dates_in_force now start end_) (fun '(s, e) => add_one_day s e).
Proof.
  unfold check_dates, dates_in_force.
  destruct start as [[| c s] |], nodatefilter; cbn; try discriminate;
    reflexivity.
Qed.

(** *** check_dates *)

(** C5: with [nodatefilter] set and no start, the result is
    [(datetime.min, now)] whatever the clock and the end argument are;
    an empty start string counts as no start. *)
Theorem check_dates_nodatefilter (now : datetime) (end_ : option string) :
  check_dates now None end_ true = Ok (DDateTime datetime_min, DDateTime now)
  /\ check_dates now (Some EmptyString) end_ true
     = Ok (DDateTime datetime_min, DDateTime now)
  /\ datetime_min = midnight (mk_date MINYEAR 1 1).
Proof. repeat split. Qed.






(** The converse of C2: the function does return whenever the inclusive
    end parses and is not the last day of the calendar. *)
Lemma check_dates_returns (now : datetime) (start end_ : option string)
    (nodatefilter : bool) (s : string) (e : option string) (d : date) :
  is_unset start && nodatefilter = false ->
  dates_in_force now start end_ = Ok (s, e) ->
  strptime (inclusive_end s e) = Ok (midnight d) ->
  0 < toordinal d + 1 <= _MAXORDINAL ->
  check_dates now start end_ nodatefilter
  = Ok (DStr s, DStr (strftime (fromordinal (toordinal d + 1)))).
Proof.
  intros Hpath Hf Hp Hr. rewrite (check_dates_in_force _ _ _ _ Hpath), Hf.
  cbn [result_bind]. by apply add_one_day_ok.
Qed.

(** C3 as stated fails: a start that does not parse, next to an end that
    does, goes through; and so does an end that does not parse when no
    start is given and either [nodatefilter] is set or yesterday is a
    Sunday. *)
Lemma malformed_start_accepted :
  is_ok (strptime "garbage") = false
  /\ check_dates Sample.wednesday (Some "garbage") (Some "2016-07-15") false
     = Ok (DStr "garbage", DStr "2016-07-16")
  /\ check_dates Sample.wednesday None (Some "garbage") true
     = Ok (DDateTime datetime_min, DDateTime Sample.wednesday)
  /\ check_dates Sample.monday None (Some "garbage") false
     = Ok (DStr "2016-07-15", DStr "2016-07-18").
Proof. do 3 (split; [reflexivity |]). reflexivity. Qed.

(** What lines 161-172 do with the texts in force: the end in force is
    parsed, and nothing else. *)
Lemma add_one_day_cases (start : string) (end_ : option string) :
  match strptime (inclusive_end start end_) with
  | Raise _ => add_one_day start end_ = Raise ValueError
  | Ok dt =>
      add_one_day start end_
      = if toordinal (dt_date dt) + 1 <=? _MAXORDINAL
        then Ok (DStr start,
                 DStr (strftime (fromordinal (toordinal (dt_date dt) + 1))))
        else Raise OverflowError
  end.
Proof.
  destruct (strptime (inclusive_end start end_)) as [dt | e] eqn:E.
  - destruct (strptime_Ok_inv _ _ E) as [V Hm].
    pose proof (toordinal_valid_range _ V) as Hr.
    unfold add_one_day, datetime_add_days, date_add_days. cbv zeta.
    rewrite E. cbn [result_bind].
    destruct (Z.ltb_spec 0 (toordinal (dt_date dt) + 1)); [| lia].
    cbn [andb].
    destruct (toordinal (dt_date dt) + 1 <=? _MAXORDINAL); reflexivity.
  - apply add_one_day_raises. by rewrite E.
Qed.

(** C3, amended: [check_dates] parses the end in force and nothing else;
    the start is never parsed on its own account.
    - With a start given, the end in force is the end argument, or the
      start when the end is missing or empty. If it does not parse the
      call raises [ValueError]; if it parses and is the last day of the
      calendar the call raises [OverflowError]; otherwise the start comes
      back as given, parsed or not, with the day after the end.
    - With no start and [nodatefilter] set nothing is parsed and the call
      returns.
    - With no start and [nodatefilter] unset: on the day after a Sunday
      the end argument is not looked at; on any other day it is parsed as
      above, with yesterday for the start. *)
Theorem check_dates_parses_end_only (now : datetime) (start end_ : option string)
    (nodatefilter : bool) :
  (forall s, start = Some s -> s <> EmptyString ->
     match strptime (inclusive_end s end_) with
     | Raise _ => check_dates now start end_ nodatefilter = Raise ValueError
     | Ok dt =>
         check_dates now start end_ nodatefilter
         = if toordinal (dt_date dt) + 1 <=? _MAXORDINAL
           then Ok (DStr s,
                    DStr (strftime (fromordinal (toordinal (dt_date dt) + 1))))
           else Raise OverflowError
     end)
  /\ (is_unset start = true -> nodatefilter = true ->
      check_dates now start end_ nodatefilter
      = Ok (DDateTime datetime_min, DDateTime now))
  /\ (is_unset start = true -> nodatefilter = false ->
      forall yesterday,
        date_add_days (dt_date now) (-1) = Ok yesterday ->
        if weekday yesterday =? 6
        then check_dates now start end_ nodatefilter
             = check_dates now start None nodatefilter
        else
          match strptime (inclusive_end (strftime yesterday) end_) with
          | Raise _ => check_dates now start end_ nodatefilter = Raise ValueError
          | Ok dt =>
              check_dates now start end_ nodatefilter
              = if toordinal (dt_date dt) + 1 <=? _MAXORDINAL
                then Ok (DStr (strftime yesterday),
                         DStr (strftime
                                 (fromordinal (toordinal (dt_date dt) + 1))))
                else Raise OverflowError
          end).
Proof.
  split; [| split].
  - intros s -> Hs. destruct s as [| c r]; [congruence |].
    apply (add_one_day_cases (String c r) end_).
  - intros Hu ->. by destruct start as [[| c r] |].
  - intros Hu -> yesterday Hy.
    assert (Hc : forall e,
      check_dates now start e false
      = result_bind (default_dates now e) (fun '(s, e') => add_one_day s e'))
      by (intros e; destruct start as [[| c r] |];
          [reflexivity | discriminate | reflexivity]).
    rewrite !Hc. unfold default_dates. rewrite Hy. cbn [result_bind].
    destruct (weekday yesterday =? 6); cbn [negb].
    + reflexivity.
    + cbn [result_bind]. apply add_one_day_cases.
Qed.

Lemma check_dates_parses_end_only_witness :
  check_dates Sample.wednesday (Some "garbage") None false = Raise ValueError.
Proof.
  exact (proj1 (check_dates_parses_end_only Sample.wednesday (Some "garbage")
                  None false) "garbage" eq_refl ltac:(discriminate)).
Defined.

Lemma inclusive_end_strftime (start : string) (d : date) :
  inclusive_end start (Some (strftime d)) = strftime d.
Proof. destruct (strftime_cons d) as (c & r & ->). reflexivity. Qed.

Lemma weekday_fromordinal (n : Z) : 1 <= n -> weekday (fromordinal n) = (n + 6) mod 7.
Proof. intros H. unfold weekday. by rewrite toordinal_fromordinal. Qed.

(** C4 as stated fails on a Monday: the range starts on the Friday, three
    days back, not on the Saturday, and the end that comes back is the
    Monday itself. *)
Lemma monday_range_starts_friday :
  let today := dt_date Sample.monday in
  let sunday := fromordinal (toordinal today - 1) in
  let saturday := fromordinal (toordinal today - 2) in
  weekday sunday = 6
  /\ strftime saturday = "2016-07-16"
  /\ strftime sunday = "2016-07-17"
  /\ check_dates Sample.monday None None false
     = Ok (DStr "2016-07-15", DStr "2016-07-18")
  /\ check_dates Sample.monday None None false
     <> Ok (DStr (strftime saturday), DStr (strftime sunday)).
Proof.
  cbv zeta. do 4 (split; [reflexivity |]).
  intros H. vm_compute in H. discriminate H.
Qed.

(** Lines 151-157 on a clock that has three days behind it. *)
Lemma default_dates_spec (now : datetime) (end_ : option string) :
  4 <= toordinal (dt_date now) <= _MAXORDINAL ->
  let yesterday := fromordinal (toordinal (dt_date now) - 1) in
  let friday := fromordinal (toordinal (dt_date now) - 3) in
  default_dates now end_
  = if weekday yesterday =? 6
    then Ok (strftime friday, Some (strftime yesterday))
    else Ok (strftime yesterday, end_).
Proof.
  intros Hr yesterday friday. unfold default_dates.
  rewrite (date_add_days_ok (dt_date now) (-1)) by lia.
  cbn [result_bind].
  change (toordinal (dt_date now) + -1) with (toordinal (dt_date now) - 1).
  fold yesterday.
  assert (Oy : toordinal yesterday = toordinal (dt_date now) - 1)
    by (apply toordinal_fromordinal; lia).
  destruct (weekday yesterday =? 6); cbn [negb]; [| reflexivity].
  rewrite (date_add_days_ok yesterday (-2)) by lia.
  cbn [result_bind]. rewrite Oy.
  replace (toordinal (dt_date now) - 1 + -2) with (toordinal (dt_date now) - 3)
    by lia.
  reflexivity.
Qed.

(** Pushing yesterday's text one day on gives today's, when yesterday's
    text reads back: from the year 1000 on. *)
Lemma add_one_day_yesterday (today : date) (start : string)
    (end_ : option string) :
  valid_date today = true ->
  2 <= toordinal today ->
  inclusive_end start end_ = strftime (fromordinal (toordinal today - 1)) ->
  add_one_day start end_
  = if 1000 <=? year (fromordinal (toordinal today - 1))
    then Ok (DStr start, DStr (strftime today))
    else Raise ValueError.
Proof.
  intros V H2 He.
  pose proof (toordinal_valid_range _ V) as Hr.
  assert (Oy : toordinal (fromordinal (toordinal today - 1)) = toordinal today - 1)
    by (apply toordinal_fromordinal; lia).
  destruct (Z.leb_spec 1000 (year (fromordinal (toordinal today - 1))))
    as [Hy | Hy].
  - rewrite (add_one_day_ok start end_ (fromordinal (toordinal today - 1))).
    + rewrite Oy.
      replace (toordinal today - 1 + 1) with (toordinal today) by lia.
      rewrite fromordinal_toordinal; [reflexivity |].
      by apply valid_date_well_formed in V as [? _].
    + rewrite He. apply strptime_strftime_fromordinal; [lia | exact Hy].
    + lia.
  - apply add_one_day_raises. rewrite He.
    rewrite strptime_strftime_early; [reflexivity | | exact Hy].
    apply fromordinal_valid. lia.
Qed.

(** C4, amended: with no start, no end and [nodatefilter] unset, when
    yesterday is a Sunday the range in force runs from the Friday
    (yesterday minus two days) to yesterday, and what comes back is that
    Friday and today, the day after the inclusive end; on any other day
    the inclusive range is yesterday alone and what comes back is
    yesterday and today. This for a clock whose yesterday is in the year
    1000 or later; before that, yesterday's text has a year of fewer than
    four digits and line 167 raises [ValueError]. *)
Theorem default_range (now : datetime) :
  valid_date (dt_date now) = true ->
  4 <= toordinal (dt_date now) ->
  let today := dt_date now in
  let yesterday := fromordinal (toordinal today - 1) in
  let friday := fromordinal (toordinal today - 3) in
  if weekday yesterday =? 6 then
    weekday today = 0
    /\ weekday friday = 4
    /\ dates_in_force now None None
       = Ok (strftime friday, Some (strftime yesterday))
    /\ check_dates now None None false
       = if 1000 <=? year yesterday
         then Ok (DStr (strftime friday), DStr (strftime today))
         else Raise ValueError
  else
    dates_in_force now None None = Ok (strftime yesterday, None)
    /\ check_dates now None None false
       = if 1000 <=? year yesterday
         then Ok (DStr (strftime yesterday), DStr (strftime today))
         else Raise ValueError.
Proof.
  intros V H4 today yesterday friday. subst today.
  pose proof (toordinal_valid_range _ V) as Hr.
  assert (Hd : dates_in_force now None None = default_dates now None)
    by reflexivity.
  rewrite (check_dates_in_force now None None false eq_refl), Hd.
  rewrite (default_dates_spec now None) by lia.
  fold yesterday friday.
  assert (Oy : toordinal yesterday = toordinal (dt_date now) - 1)
    by (apply toordinal_fromordinal; lia).
  assert (Of : toordinal friday = toordinal (dt_date now) - 3)
    by (apply toordinal_fromordinal; lia).
  unfold weekday. rewrite Oy, Of.
  destruct (Z.eqb_spec ((toordinal (dt_date now) - 1 + 6) mod 7) 6)
    as [E6 | N6]; cbn [result_bind].
  - split; [Z.to_euclidean_division_equations; lia |].
    split; [Z.to_euclidean_division_equations; lia |].
    split; [reflexivity |].
    apply add_one_day_yesterday;
      [exact V | lia | apply inclusive_end_strftime].
  - split; [reflexivity |].
    apply add_one_day_yesterday; [exact V | lia | reflexivity].
Qed.

Lemma default_range_witness :
  weekday (dt_date Sample.monday) = 0
  /\ weekday (fromordinal (toordinal (dt_date Sample.monday) - 3)) = 4
  /\ dates_in_force Sample.monday None None
     = Ok ("2016-07-15", Some "2016-07-17")
  /\ check_dates Sample.monday None None false
     = Ok (DStr "2016-07-15", DStr "2016-07-18").
Proof.
  exact (default_range Sample.monday eq_refl
           (Zle_bool_imp_le 4 (toordinal (dt_date Sample.monday)) eq_refl)).
Defined.

(** *** modified_bugs *)

Lemma by_self_link_snoc (tasks : list lp_task) (task : lp_task) :
  by_self_link (tasks ++ [task])
  = <[self_link task := task]> (by_self_link tasks).
Proof. unfold by_self_link. by rewrite foldl_snoc. Qed.

(** An entry of the dict is one of the tasks, filed under its own link. *)
Lemma by_self_link_Some (tasks : list lp_task) (link : string) (task : lp_task) :
  by_self_link tasks !! link = Some task ->
  task ∈ tasks /\ self_link task = link.
Proof.
  induction tasks as [| x tasks IH] using rev_ind.
  - unfold by_self_link. cbn. by rewrite lookup_empty.
  - rewrite by_self_link_snoc, lookup_insert.
    destruct (decide (self_link x = link)) as [E | N].
    + intros [= <-]. split; [apply elem_of_app; right; by left | exact E].
    + intros H. destruct (IH H) as [Hin Hl].
      split; [apply elem_of_app; by left | exact Hl].
Qed.

(** The keys of the dict are the links of the tasks. *)
Lemma by_self_link_is_Some (tasks : list lp_task) (link : string) :
  is_Some (by_self_link tasks !! link) <-> link ∈ self_link <$> tasks.
Proof.
  induction tasks as [| x tasks IH] using rev_ind.
  - unfold by_self_link. cbn. rewrite lookup_empty. split.
    + by intros [? ?].
    + by intros H%elem_of_nil.
  - rewrite by_self_link_snoc, fmap_app, elem_of_app, lookup_insert.
    cbn. rewrite list_elem_of_singleton.
    destruct (decide (self_link x = link)) as [E | N].
    + split; [by right | by eexists].
    + rewrite IH. split; [by left | by intros [? | ?]].
Qed.

Lemma bugs_in_range_Some (since_start since_end : gmap string lp_task)
    (link : string) (task : lp_task) :
  bugs_in_range since_start since_end !! link = Some task
  <-> since_start !! link = Some task /\ since_end !! link = None.
Proof. unfold bugs_in_range. by rewrite map_lookup_filter_Some. Qed.

(** What [wrap_tasks] lists, link by link. *)
Lemma wrap_tasks_links (in_range already : gmap string lp_task) :
  (forall link task, in_range !! link = Some task -> self_link task = link) ->
  task_link <$> wrap_tasks in_range already = (map_to_list in_range).*1.
Proof.
  intros Hkey. unfold wrap_tasks. rewrite <- list_fmap_compose.
  apply list_fmap_ext. intros i [link task] Hi. cbn.
  apply Hkey. apply elem_of_map_to_list. by eapply list_elem_of_lookup_2.
Qed.

(** The pure part of [modified_bugs]: from the three answers to the
    result. *)
Lemma wrap_tasks_difference (s_start s_end : list lp_task)
    (already : gmap string lp_task) :
  let bugs :=
    wrap_tasks (bugs_in_range (by_self_link s_start) (by_self_link s_end))
      already in
  NoDup (task_link <$> bugs)
  /\ (forall link,
        link ∈ task_link <$> bugs
        <-> link ∈ self_link <$> s_start /\ link ∉ self_link <$> s_end)
  /\ Forall (fun task => Task.obj task ∈ s_start) bugs
  /\ Forall (fun task =>
               Task.subscribed task
               = Some (bool_decide (is_Some (already !! task_link task))))
       bugs.
Proof.
  intros bugs.
  assert (Hkey : forall link task,
    bugs_in_range (by_self_link s_start) (by_self_link s_end) !! link = Some task
    -> self_link task = link).
  { intros link task [H _]%bugs_in_range_Some.
    by apply by_self_link_Some in H as [_ ?]. }
  split; [| split; [| split]].
  - unfold bugs. rewrite (wrap_tasks_links _ _ Hkey).
    apply NoDup_fst_map_to_list.
  - intros link. unfold bugs. rewrite (wrap_tasks_links _ _ Hkey).
    rewrite list_elem_of_fmap. split.
    + intros ([k task] & -> & Hin). cbn.
      apply elem_of_map_to_list, bugs_in_range_Some in Hin as [Hs He].
      split.
      * apply by_self_link_is_Some. by eexists.
      * intros Hc%by_self_link_is_Some. rewrite He in Hc. by destruct Hc.
    + intros [[task Hs]%by_self_link_is_Some He].
      exists (link, task). split; [reflexivity |].
      apply elem_of_map_to_list, bugs_in_range_Some. split; [exact Hs |].
      destruct (by_self_link s_end !! link) as [x |] eqn:E; [| reflexivity].
      exfalso. apply He, by_self_link_is_Some. by eexists.
  - unfold bugs, wrap_tasks. apply Forall_fmap, Forall_forall.
    intros [k task] Hin. cbn.
    apply elem_of_map_to_list, bugs_in_range_Some in Hin as [Hs _].
    by apply by_self_link_Some in Hs as [? _].
  - unfold bugs, wrap_tasks. apply Forall_fmap, Forall_forall.
    intros [k task] Hin. cbn. unfold task_link. cbn.
    apply elem_of_map_to_list in Hin. by rewrite (Hkey _ _ Hin).
Qed.

Section Remote.

Variable launchpad : Type.
Variable searchTasks : query -> launchpad -> list lp_task * launchpad.

Notation modified_bugs := (modified_bugs launchpad searchTasks).
Notation snapshots := (snapshots launchpad searchTasks).

(** C1: the links of the tasks that [modified_bugs] returns are those
    that occur in the answer to the search since the start date and
    not in the answer to the search since the end date; no link comes
    twice, however often it occurs in the answers; and every task
    returned wraps a task of the first answer. *)
Theorem modified_bugs_is_difference (start_date end_date : date_arg)
    (lpname : string) (bugsubscriber : bool) (lp : launchpad) :
  let s_start := (snapshots start_date end_date lpname bugsubscriber lp).1.1 in
  let s_end := (snapshots start_date end_date lpname bugsubscriber lp).1.2 in
  let bugs := (modified_bugs start_date end_date lpname bugsubscriber lp).1 in
  NoDup (task_link <$> bugs)
  /\ (forall link,
        link ∈ task_link <$> bugs
        <-> link ∈ self_link <$> s_start /\ link ∉ self_link <$> s_end)
  /\ Forall (fun task => Task.obj task ∈ s_start) bugs.
Proof.
  unfold Triage.modified_bugs, Triage.snapshots. cbv zeta.
  destruct bugsubscriber.
  - destruct (searchTasks _ lp) as [r1 lp1].
    destruct (searchTasks _ lp1) as [r2 lp2]. cbn [fst snd].
    destruct (wrap_tasks_difference r1 r2 ∅) as (H1 & H2 & H3 & _). auto.
  - destruct (searchTasks _ lp) as [r1 lp1].
    destruct (searchTasks _ lp1) as [r2 lp2].
    destruct (searchTasks _ lp2) as [r3 lp3]. cbn [fst snd].
    destruct (wrap_tasks_difference r1 r2 (by_self_link r3))
      as (H1 & H2 & H3 & _). auto.
Qed.

(** C8: in bug-subscriber mode every task returned has [subscribed]
    false, whatever the searches answer, and only two searches are
    made. *)
Theorem bugsubscriber_never_subscribed (start_date end_date : date_arg)
    (lpname : string) (lp : launchpad) :
  Forall (fun task => Task.subscribed task = Some false)
    (modified_bugs start_date end_date lpname true lp).1
  /\ (snapshots start_date end_date lpname true lp).2 = None.
Proof.
  unfold Triage.modified_bugs, Triage.snapshots. cbv zeta.
  destruct (searchTasks _ lp) as [r1 lp1].
  destruct (searchTasks _ lp1) as [r2 lp2]. cbn [fst snd].
  split; [| reflexivity].
  destruct (wrap_tasks_difference r1 r2 ∅) as (_ & _ & _ & H).
  eapply Forall_impl; [exact H |].
  intros task ->. cbn. by rewrite lookup_empty.
Qed.

End Remote.

End TriageFacts.

(** * Further properties *)

(** ** Tokens *)

Module PyStrMore.
Import PyStr PyStrFacts.

Lemma split_nonempty (sep : ascii) (s : string) : split sep s <> [].
Proof.
  induction s as [| c s IH]; cbn [split]; [discriminate |].
  destruct (Ascii.eqb c sep); [discriminate |].
  destruct (split sep s); discriminate.
Qed.

(** The number of separators in a string. *)
Lemma length_split (sep : ascii) (s : string) :
  length (split sep s) = S (length (filter (fun a => a = sep) (chars s))).
Proof.
  induction s as [| c s IH]; [reflexivity |].
  cbn [split chars list_ascii_of_string].
  destruct (Ascii.eqb_spec c sep) as [-> | Hne].
  - rewrite filter_cons_True by reflexivity. cbn [length]. by rewrite IH.
  - rewrite filter_cons_False by exact Hne.
    pose proof (split_nonempty sep s) as Hn.
    destruct (split sep s) as [| tok toks]; [congruence |]. exact IH.
Qed.

Lemma join_cons (sep x : string) (y : string) (l : list string) :
  join sep (x :: y :: l) = x +:+ sep +:+ join sep (y :: l).
Proof. reflexivity. Qed.

(** Splitting at a character and joining with it gives the string back. *)
Lemma join_split (sep : ascii) (s : string) :
  join (String sep EmptyString) (split sep s) = s.
Proof.
  induction s as [| c s IH]; [reflexivity |].
  cbn [split].
  pose proof (split_nonempty sep s) as Hn.
  destruct (Ascii.eqb_spec c sep) as [-> | Hne].
  - destruct (split sep s) as [| tok toks]; [congruence |].
    rewrite join_cons, IH. reflexivity.
  - destruct (split sep s) as [| tok toks]; [congruence |].
    destruct toks as [| tok' toks].
    + cbn [join] in *. by rewrite IH.
    + rewrite join_cons in *. rewrite append_cons. by rewrite IH.
Qed.

Lemma join_app (sep : string) (l1 l2 : list string) :
  l1 <> [] -> l2 <> [] ->
  join sep (l1 ++ l2) = join sep l1 +:+ sep +:+ join sep l2.
Proof.
  intros H1 H2. induction l1 as [| x l1 IH]; [congruence |].
  destruct l1 as [| y l1].
  - destruct l2 as [| z l2]; [congruence |]. reflexivity.
  - change ((x :: y :: l1) ++ l2) with (x :: y :: (l1 ++ l2)).
    rewrite !join_cons.
    change (y :: l1 ++ l2) with ((y :: l1) ++ l2).
    rewrite IH by discriminate. by rewrite !append_assoc.
Qed.

End PyStrMore.

(** ** Tasks *)

Module TaskMore.
Import Task TaskFacts PyStrFacts PyStrMore.

(** A handler that stores its value under [key] makes the property
    memoised. *)
Lemma try_cache_memoised (key : string) (handler : M string) :
  (forall self v,
     (handler self).1 = Ok v -> _cache (handler self).2 !! key = Some v) ->
  memoised (try_cache key handler).
Proof.
  intros Hh self v. unfold try_cache.
  destruct (_cache self !! key) as [w |] eqn:E.
  - cbn. intros [= <-]. by rewrite E.
  - intros Hv. by rewrite (Hh self v Hv).
Qed.

(** The tail of the three parsing handlers: what [title] left, then the
    store and the load. *)
Lemma handler_stores (key : string) (parse : string -> result string)
    (self : t) (v : string) :
  ((ti ← title; w ← lift (parse ti); cache_store key w ;; cache_load key) self).1
  = Ok v ->
  _cache
    ((ti ← title; w ← lift (parse ti); cache_store key w ;; cache_load key) self).2
  !! key = Some v.
Proof.
  destruct (title_returns self) as (ti & self' & Ht).
  run. rewrite Ht. destruct (parse ti) as [w | e]; cbn; [| discriminate].
  rewrite lookup_insert_eq. cbn. intros [= <-]. apply lookup_insert_eq.
Qed.

(** X1: every cached property, once it has returned a value, returns the
    same value again and leaves the instance as it is. *)
Theorem properties_memoised :
  memoised title /\ memoised status /\ memoised number /\ memoised src
  /\ memoised short_title.
Proof.
  split; [| split; [| split; [| split]]].
  - apply try_cache_memoised. intros self v. run.
    rewrite lookup_insert_eq. cbn. intros [= <-]. apply lookup_insert_eq.
  - apply try_cache_memoised. intros self v. run.
    rewrite lookup_insert_eq. cbn. intros [= <-]. apply lookup_insert_eq.
  - apply try_cache_memoised. intros self v.
    apply (handler_stores "number" parse_number).
  - apply try_cache_memoised. intros self v.
    apply (handler_stores "src" parse_src).
  - apply try_cache_memoised. intros self v.
    apply (handler_stores "short_title" (fun ti => Ok (parse_short_title ti))).
Qed.

Lemma index_ok {A : Type} (l : list A) (i : nat) :
  is_ok (PyStr.index l i) = true <-> (i < length l)%nat.
Proof.
  unfold PyStr.index. rewrite <- lookup_lt_is_Some.
  destruct (l !! i); cbn; split; done.
Qed.

Lemma index_raises {A : Type} (l : list A) (i : nat) :
  PyStr.index l i = Raise IndexError <-> (length l <= i)%nat.
Proof.
  unfold PyStr.index. rewrite <- lookup_ge_None.
  destruct (l !! i); split; done.
Qed.

Lemma tokens_count (title : string) :
  length (PyStr.split PyStr.space title) = S (count_spaces title).
Proof. apply length_split. Qed.

Lemma remove_append (c : ascii) (a b : string) :
  PyStr.remove c (a +:+ b) = PyStr.remove c a +:+ PyStr.remove c b.
Proof.
  induction a as [| x a IH]; [reflexivity |].
  rewrite append_cons. cbn [PyStr.remove].
  destruct (Ascii.eqb x c); [exact IH |].
  rewrite append_cons. by rewrite IH.
Qed.

(** The parsing expressions in terms of the spaces of the title. *)
Lemma parse_number_ok (title : string) :
  is_ok (parse_number title) = true <-> (1 <= count_spaces title)%nat.
Proof.
  unfold parse_number.
  pose proof (index_ok (PyStr.split PyStr.space title) 1) as O1.
  rewrite tokens_count in O1.
  destruct (PyStr.index _ 1) as [tok | e]; cbn [result_bind is_ok] in *.
  - split; [intros _; destruct O1 as [O1 _]; specialize (O1 eq_refl); lia
           | reflexivity].
  - split; [discriminate | intros H; destruct O1 as [_ O1]; apply O1; lia].
Qed.

Lemma parse_number_raises (title : string) :
  parse_number title = Raise IndexError <-> count_spaces title = 0%nat.
Proof.
  unfold parse_number.
  pose proof (index_ok (PyStr.split PyStr.space title) 1) as O1.
  pose proof (index_raises (PyStr.split PyStr.space title) 1) as R1.
  rewrite tokens_count in O1, R1.
  destruct (PyStr.index _ 1) as [tok | e]; cbn [result_bind is_ok] in *.
  - split; [discriminate |]. intros Hn.
    destruct O1 as [O1 _]. specialize (O1 eq_refl). lia.
  - rewrite R1. lia.
Qed.

Lemma parse_src_ok (title : string) :
  is_ok (parse_src title) = true <-> (3 <= count_spaces title)%nat.
Proof.
  unfold parse_src. rewrite index_ok, tokens_count. lia.
Qed.

Lemma parse_src_raises (title : string) :
  parse_src title = Raise IndexError <-> (count_spaces title < 3)%nat.
Proof.
  unfold parse_src. rewrite index_raises, tokens_count. lia.
Qed.

(** X2: on a sound instance, [number] raises [IndexError] exactly when
    the title has no space and [src] exactly when it has fewer than
    three; otherwise they return; [short_title] never raises, and is empty
    when the title has fewer than five spaces. *)
Theorem title_too_short (self : t) :
  cache_ok self ->
  let n := count_spaces (lp_title (obj self)) in
  ((number self).1 = Raise IndexError <-> n = 0%nat)
  /\ (is_ok (number self).1 = true <-> (1 <= n)%nat)
  /\ ((src self).1 = Raise IndexError <-> (n < 3)%nat)
  /\ (is_ok (src self).1 = true <-> (3 <= n)%nat)
  /\ is_ok (short_title self).1 = true
  /\ ((n < 5)%nat -> (short_title self).1 = Ok EmptyString).
Proof.
  intros Hok n.
  rewrite (computes_value _ _ self computes_number Hok).
  rewrite (computes_value _ _ self computes_src Hok).
  rewrite (computes_value _ _ self computes_short_title Hok).
  split; [apply parse_number_raises |].
  split; [apply parse_number_ok |].
  split; [apply parse_src_raises |].
  split; [apply parse_src_ok |].
  split; [reflexivity |].
  intros H5. unfold parse_short_title, PyStr.slice_from.
  pose proof (tokens_count (lp_title (obj self))) as Hl. fold n in Hl.
  rewrite drop_ge by lia. reflexivity.
Qed.

Lemma title_too_short_witness :
  ((number (create_from_launchpadlib_object Sample.bug false)).1
   = Raise IndexError <-> count_spaces Sample.title = 0%nat)
  /\ (is_ok (number (create_from_launchpadlib_object Sample.bug false)).1 = true
      <-> (1 <= count_spaces Sample.title)%nat)
  /\ ((src (create_from_launchpadlib_object Sample.bug false)).1
      = Raise IndexError <-> (count_spaces Sample.title < 3)%nat)
  /\ (is_ok (src (create_from_launchpadlib_object Sample.bug false)).1 = true
      <-> (3 <= count_spaces Sample.title)%nat)
  /\ is_ok (short_title (create_from_launchpadlib_object Sample.bug false)).1 = true
  /\ ((count_spaces Sample.title < 5)%nat
      -> (short_title (create_from_launchpadlib_object Sample.bug false)).1
         = Ok EmptyString).
Proof.
  apply (title_too_short (create_from_launchpadlib_object Sample.bug false)).
  apply cache_ok_new.
Defined.

(** X3: when the title has at least five spaces, it is, quotes apart, its
    first five tokens, a space, and [short_title]: the summary loses
    nothing but the quotes. *)
Theorem short_title_is_the_rest (self : t) :
  cache_ok self ->
  (5 <= count_spaces (lp_title (obj self)))%nat ->
  exists v,
    (short_title self).1 = Ok v
    /\ PyStr.remove PyStr.dquote (lp_title (obj self))
       = PyStr.remove PyStr.dquote
           (PyStr.join " " (take 5 (PyStr.split PyStr.space (lp_title (obj self)))))
         +:+ " " +:+ v.
Proof.
  intros Hok H5. eexists. split.
  - apply (computes_value _ _ self computes_short_title Hok).
  - cbn beta. unfold parse_short_title, PyStr.slice_from.
    pose proof (tokens_count (lp_title (obj self))) as Hl.
    set (toks := PyStr.split PyStr.space (lp_title (obj self))) in *.
    rewrite <- (join_split PyStr.space (lp_title (obj self))) at 1.
    fold toks. rewrite <- (take_drop 5 toks) at 1.
    change (String PyStr.space EmptyString) with " ".
    rewrite join_app.
    + rewrite !remove_append. reflexivity.
    + intros E. apply (f_equal length) in E. rewrite length_take in E.
      cbn [length] in E. lia.
    + intros E. apply (f_equal length) in E. rewrite length_drop in E.
      cbn [length] in E. lia.
Qed.

Lemma short_title_is_the_rest_witness :
  exists v,
    (short_title (create_from_launchpadlib_object Sample.bug false)).1 = Ok v
    /\ PyStr.remove PyStr.dquote Sample.title
       = PyStr.remove PyStr.dquote
           (PyStr.join " " (take 5 (PyStr.split PyStr.space Sample.title)))
         +:+ " " +:+ v.
Proof.
  apply (short_title_is_the_rest (create_from_launchpadlib_object Sample.bug false)).
  - apply cache_ok_new.
  - vm_compute. lia.
Defined.

Lemma pretty_line_ok (shortlinks : bool) (o : lp_task) (sub : option bool) :
  is_ok (pretty_line shortlinks o sub) = is_ok (parse_src (lp_title o)).
Proof.
  unfold pretty_line, parse_number, parse_src.
  destruct (PyStr.index (PyStr.split PyStr.space (lp_title o)) 3) as [sr | e] eqn:E3.
  - assert (H3 : is_ok (PyStr.index (PyStr.split PyStr.space (lp_title o)) 3) = true)
      by (by rewrite E3).
    apply index_ok in H3.
    destruct (PyStr.index (PyStr.split PyStr.space (lp_title o)) 1) as [tok | e] eqn:E1.
    + reflexivity.
    + apply (f_equal is_ok) in E1. cbn in E1.
      assert (H1 : is_ok (PyStr.index (PyStr.split PyStr.space (lp_title o)) 1) = true)
        by (apply index_ok; lia).
      congruence.
  - cbn. destruct (PyStr.index _ 1); reflexivity.
Qed.

Lemma pretty_line_raises (shortlinks : bool) (o : lp_task) (sub : option bool)
    (e : exn) :
  pretty_line shortlinks o sub = Raise e -> e = IndexError.
Proof.
  unfold pretty_line, parse_number, parse_src, PyStr.index.
  destruct (_ !! 1%nat); cbn; [| congruence].
  destruct (_ !! 3%nat); cbn; congruence.
Qed.

Lemma pretty_line_returns (shortlinks : bool) (o : lp_task) (sub : option bool) :
  (3 <= count_spaces (lp_title o))%nat ->
  exists line, pretty_line shortlinks o sub = Ok line.
Proof.
  intros H3%parse_src_ok. rewrite <- (pretty_line_ok shortlinks o sub) in H3.
  destruct (pretty_line shortlinks o sub) as [line | e]; [by eexists | discriminate].
Qed.

Lemma pretty_line_too_short (shortlinks : bool) (o : lp_task) (sub : option bool) :
  (count_spaces (lp_title o) < 3)%nat ->
  pretty_line shortlinks o sub = Raise IndexError.
Proof.
  intros H3%parse_src_raises.
  destruct (pretty_line shortlinks o sub) as [line | e] eqn:E.
  - apply (f_equal is_ok) in E. rewrite pretty_line_ok, H3 in E. discriminate.
  - by rewrite (pretty_line_raises _ _ _ _ E).
Qed.

(** X4: [compose_pretty] returns a line exactly when the title has at
    least three spaces and raises [IndexError] otherwise; and what it
    returns does not depend on what the cache already holds: a second
    call, in either mode, answers as it would have on the untouched
    instance. *)
Theorem compose_pretty_needs_four_tokens (self : t) (shortlinks again : bool) :
  cache_ok self ->
  (is_ok (compose_pretty shortlinks self).1 = true
   <-> (3 <= count_spaces (lp_title (obj self)))%nat)
  /\ ((compose_pretty shortlinks self).1 = Raise IndexError
      <-> (count_spaces (lp_title (obj self)) < 3)%nat)
  /\ (compose_pretty again (compose_pretty shortlinks self).2).1
     = (compose_pretty again self).1.
Proof.
  intros Hok.
  destruct (computes_compose_pretty shortlinks self Hok) as (Hv & Hok' & Ho & Hs).
  pose proof (parse_src_raises (lp_title (obj self))) as Hr.
  pose proof (parse_src_ok (lp_title (obj self))) as Ho3.
  split; [| split].
  - rewrite Hv, pretty_line_ok. exact Ho3.
  - rewrite Hv. rewrite <- Hr. split.
    + intros H. apply (f_equal is_ok) in H. rewrite pretty_line_ok in H.
      destruct (parse_src (lp_title (obj self))) as [sr | e] eqn:E; [discriminate |].
      unfold parse_src, PyStr.index in E.
      destruct (_ !! 3%nat); congruence.
    + intros H.
      destruct (pretty_line shortlinks (obj self) (subscribed self)) as [l | e] eqn:E.
      * apply (f_equal is_ok) in E. rewrite pretty_line_ok, H in E. discriminate.
      * by rewrite (pretty_line_raises _ _ _ _ E).
  - rewrite (computes_value _ _ _ (computes_compose_pretty again) Hok').
    rewrite (computes_value _ _ _ (computes_compose_pretty again) Hok).
    by rewrite Ho, Hs.
Qed.

Lemma compose_pretty_needs_four_tokens_witness :
  (is_ok (compose_pretty true (create_from_launchpadlib_object Sample.bug true)).1
   = true <-> (3 <= count_spaces Sample.title)%nat)
  /\ ((compose_pretty true (create_from_launchpadlib_object Sample.bug true)).1
      = Raise IndexError <-> (count_spaces Sample.title < 3)%nat)
  /\ (compose_pretty false
        (compose_pretty true (create_from_launchpadlib_object Sample.bug true)).2).1
     = (compose_pretty false (create_from_launchpadlib_object Sample.bug true)).1.
Proof.
  apply (compose_pretty_needs_four_tokens
           (create_from_launchpadlib_object Sample.bug true) true false).
  apply cache_ok_new.
Defined.

(** X5: the line is a prefix followed by the summary, and the prefix is as
    wide as its four fields: the link in at least 7 characters more than
    its root, the status with its marker and parentheses in at least 16,
    the source in brackets in at least 16, and 7 characters of
    separators. With short fields the summary starts at column 51 with
    shortlinks and at column 78 with full URLs. *)
Theorem compose_pretty_columns (self : t) (shortlinks : bool) (n sr : string) :
  cache_ok self ->
  (number self).1 = Ok n ->
  (src self).1 = Ok sr ->
  let root := if shortlinks then SHORTLINK_ROOT else LONG_URL_ROOT in
  let mark := if truthy (subscribed self) then 1%nat else 0%nat in
  exists prefix v,
    (compose_pretty shortlinks self).1 = Ok (prefix +:+ v)
    /\ (short_title self).1 = Ok v
    /\ String.length prefix
       = (Nat.max (BUG_NUMBER_LENGTH + String.length root)
            (String.length root + String.length n)
          + Nat.max 16 (mark + String.length (lp_status (obj self)) + 2)
          + Nat.max 16 (String.length sr + 2) + 7)%nat
    /\ ((String.length n <= 7)%nat
        -> (mark + String.length (lp_status (obj self)) + 2 <= 16)%nat
        -> (String.length sr + 2 <= 16)%nat
        -> String.length prefix = if shortlinks then 51%nat else 78%nat).
Proof.
  intros Hok Hn Hs root mark.
  rewrite (computes_value _ _ self computes_number Hok) in Hn.
  rewrite (computes_value _ _ self computes_src Hok) in Hs.
  rewrite (computes_value _ _ self (computes_compose_pretty shortlinks) Hok).
  rewrite (computes_value _ _ self computes_short_title Hok).
  unfold pretty_line. rewrite Hn, Hs. cbn [result_bind].
  set (bug_url := if shortlinks then _ else _).
  set (st := PyStr.ljust 16 _). set (sc := PyStr.ljust 16 _).
  exists (bug_url +:+ " - " +:+ st +:+ " " +:+ sc +:+ " - "),
    (parse_short_title (lp_title (obj self))).
  assert (Hlen :
    String.length (bug_url +:+ " - " +:+ st +:+ " " +:+ sc +:+ " - ")
    = (Nat.max (BUG_NUMBER_LENGTH + String.length root)
         (String.length root + String.length n)
       + Nat.max 16 (mark + String.length (lp_status (obj self)) + 2)
       + Nat.max 16 (String.length sr + 2) + 7)%nat).
  { rewrite !length_append. unfold bug_url, st, sc, root, mark.
    destruct shortlinks, (truthy (subscribed self));
      rewrite !length_ljust, !length_append; cbn [String.length]; lia. }
  split; [| split; [reflexivity | split; [exact Hlen |]]].
  - f_equal. by rewrite !append_assoc.
  - intros H1 H2 H3. rewrite Hlen. unfold root, BUG_NUMBER_LENGTH.
    destruct shortlinks; cbn [String.length SHORTLINK_ROOT LONG_URL_ROOT]; lia.
Qed.

Lemma compose_pretty_columns_witness :
  exists prefix v,
    (compose_pretty true (create_from_launchpadlib_object Sample.bug true)).1
    = Ok (prefix +:+ v)
    /\ (short_title (create_from_launchpadlib_object Sample.bug true)).1 = Ok v
    /\ String.length prefix
       = (Nat.max (BUG_NUMBER_LENGTH + String.length SHORTLINK_ROOT)
            (String.length SHORTLINK_ROOT + String.length "123456")
          + Nat.max 16 (1 + String.length (lp_status Sample.bug) + 2)
          + Nat.max 16 (String.length "thunderbird" + 2) + 7)%nat
    /\ ((String.length "123456" <= 7)%nat
        -> (1 + String.length (lp_status Sample.bug) + 2 <= 16)%nat
        -> (String.length "thunderbird" + 2 <= 16)%nat
        -> String.length prefix = 51%nat).
Proof.
  apply (compose_pretty_columns
           (create_from_launchpadlib_object Sample.bug true) true
           "123456" "thunderbird").
  - apply cache_ok_new.
  - reflexivity.
  - reflexivity.
Defined.

End TaskMore.

(** ** Printing *)

Module ReportFacts.
Import Task TaskFacts TaskMore Report.

(** One task whose line can be composed: its events, and nothing else. *)
Lemma print_bug_ok (open_in_browser shortlinks : bool) (task : Task.t)
    (line : string) :
  cache_ok task ->
  pretty_line shortlinks (obj task) (subscribed task) = Ok line ->
  exists n task',
    parse_number (lp_title (obj task)) = Ok n
    /\ print_bug open_in_browser shortlinks task
       = (Ok tt, events_of open_in_browser line (LONG_URL_ROOT +:+ n), task').
Proof.
  intros Hok Hl.
  destruct (computes_compose_pretty shortlinks task Hok) as (Hv & Hok' & Ho & Hs).
  rewrite Hl in Hv. unfold print_bug.
  destruct (compose_pretty shortlinks task) as [r task1]. cbn [fst snd] in *.
  subst r.
  destruct (parse_number (lp_title (obj task))) as [n | e] eqn:En;
    [| unfold pretty_line in Hl; rewrite En in Hl; discriminate].
  destruct (computes_url task1 Hok') as (Hu & _).
  rewrite Ho, En in Hu. cbn [result_bind] in Hu.
  destruct (url task1) as [r2 task2]. cbn [fst] in Hu. subst r2.
  exists n, (if open_in_browser then task2 else task1).
  split; [reflexivity |]. unfold events_of. by destruct open_in_browser.
Qed.

Lemma print_bug_raises (open_in_browser shortlinks : bool) (task : Task.t)
    (e : exn) :
  cache_ok task ->
  pretty_line shortlinks (obj task) (subscribed task) = Raise e ->
  exists task', print_bug open_in_browser shortlinks task = (Raise e, [], task').
Proof.
  intros Hok Hl.
  destruct (computes_compose_pretty shortlinks task Hok) as (Hv & _).
  rewrite Hl in Hv. unfold print_bug.
  destruct (compose_pretty shortlinks task) as [r task1]. cbn [fst] in Hv.
  subst r. by eexists.
Qed.

Lemma print_bugs_app (l1 l2 : list Task.t) (open_in_browser shortlinks : bool) :
  (print_bugs l1 open_in_browser shortlinks).1 = Ok tt ->
  print_bugs (l1 ++ l2) open_in_browser shortlinks
  = ((print_bugs l2 open_in_browser shortlinks).1,
     (print_bugs l1 open_in_browser shortlinks).2
     ++ (print_bugs l2 open_in_browser shortlinks).2).
Proof.
  induction l1 as [| task l1 IH]; intros H.
  - cbn. by destruct (print_bugs l2 _ _).
  - cbn [app print_bugs] in *.
    destruct (print_bug open_in_browser shortlinks task) as [[[[] | e] out] task'].
    + destruct (print_bugs l1 open_in_browser shortlinks) as [r1 out1] eqn:E1.
      cbn [fst snd] in *. rewrite (IH H). cbn [fst snd].
      by rewrite app_assoc.
    + discriminate H.
Qed.

(** The events of a run over tasks that can all be printed. *)
Lemma print_bugs_chunks (tasks : list Task.t) (open_in_browser shortlinks : bool) :
  Forall cache_ok tasks ->
  Forall (fun task => (3 <= count_spaces (lp_title (obj task)))%nat) tasks ->
  exists chunks,
    print_bugs tasks open_in_browser shortlinks = (Ok tt, concat chunks)
    /\ Forall2
         (fun task chunk =>
            exists line n,
              pretty_line shortlinks (obj task) (subscribed task) = Ok line
              /\ parse_number (lp_title (obj task)) = Ok n
              /\ chunk = events_of open_in_browser line (LONG_URL_ROOT +:+ n))
         tasks chunks.
Proof.
  induction tasks as [| task tasks IH]; intros Hok H3.
  - exists []. split; [reflexivity | constructor].
  - apply Forall_cons in Hok as [Hok Hoks]. apply Forall_cons in H3 as [H3 H3s].
    destruct (IH Hoks H3s) as (chunks & Hp & Hf).
    destruct (pretty_line_returns shortlinks (obj task) (subscribed task) H3)
      as [line El].
    destruct (print_bug_ok open_in_browser shortlinks task line Hok El)
      as (n & task' & En & Hb).
    exists (events_of open_in_browser line (LONG_URL_ROOT +:+ n) :: chunks).
    split.
    + cbn [print_bugs concat]. rewrite Hb, Hp. reflexivity.
    + constructor; [| exact Hf]. exists line, n. auto.
Qed.

(** X6: when every task has a sound cache and a title with at least
    three spaces, [print_bugs] ends normally and its events are, task by
    task and in the order of the tasks, the line of the task and, with
    [open_in_browser], the page [LONG_URL_ROOT + number] right after it:
    one line for each task, and one page for each when pages are asked
    for. *)
Theorem print_bugs_trace (tasks : list Task.t) (open_in_browser shortlinks : bool) :
  Forall cache_ok tasks ->
  Forall (fun task => (3 <= count_spaces (lp_title (obj task)))%nat) tasks ->
  exists chunks,
    print_bugs tasks open_in_browser shortlinks = (Ok tt, concat chunks)
    /\ Forall2
         (fun task chunk =>
            exists line n,
              pretty_line shortlinks (obj task) (subscribed task) = Ok line
              /\ parse_number (lp_title (obj task)) = Ok n
              /\ chunk = events_of open_in_browser line (LONG_URL_ROOT +:+ n))
         tasks chunks
    /\ length (concat chunks)
       = ((if open_in_browser then 2 else 1) * length tasks)%nat.
Proof.
  intros Hok H3.
  destruct (print_bugs_chunks tasks open_in_browser shortlinks Hok H3)
    as (chunks & Hp & Hf).
  exists chunks. split; [exact Hp |]. split; [exact Hf |].
  clear Hp Hok H3. induction Hf as [| task chunk tasks chunks Hc Hf IH].
  - cbn. lia.
  - destruct Hc as (line & n & _ & _ & ->).
    cbn [concat length]. rewrite length_app, IH. unfold events_of.
    destruct open_in_browser; cbn [length]; lia.
Qed.

Lemma print_bugs_trace_witness :
  exists chunks,
    print_bugs [create_from_launchpadlib_object Sample.bug true;
                create_from_launchpadlib_object Sample.quoted_bug false]
      true true
    = (Ok tt, concat chunks)
    /\ Forall2
         (fun task chunk =>
            exists line n,
              pretty_line true (obj task) (subscribed task) = Ok line
              /\ parse_number (lp_title (obj task)) = Ok n
              /\ chunk = events_of true line (LONG_URL_ROOT +:+ n))
         [create_from_launchpadlib_object Sample.bug true;
          create_from_launchpadlib_object Sample.quoted_bug false]
         chunks
    /\ length (concat chunks)
       = (2 * length
                [create_from_launchpadlib_object Sample.bug true;
                 create_from_launchpadlib_object Sample.quoted_bug false])%nat.
Proof.
  apply (print_bugs_trace
           [create_from_launchpadlib_object Sample.bug true;
            create_from_launchpadlib_object Sample.quoted_bug false] true true).
  - repeat constructor; apply cache_ok_new.
  - repeat constructor; vm_compute; lia.
Defined.

(** X7: without [open_in_browser] no page is ever opened, whatever the
    tasks are and however the loop ends. *)
Theorem print_bugs_never_opens (tasks : list Task.t) (shortlinks : bool) :
  Forall (fun ev => exists line, ev = Info line)
    (print_bugs tasks false shortlinks).2.
Proof.
  induction tasks as [| task tasks IH]; [constructor |].
  cbn [print_bugs]. unfold print_bug.
  destruct (compose_pretty shortlinks task) as [[line | e] task'].
  - destruct (print_bugs tasks false shortlinks) as [r out]. cbn [snd] in *.
    constructor; [by eexists | exact IH].
  - constructor.
Qed.

(** X8: at the first task whose title has fewer than three spaces the
    loop ends with [IndexError]: the events are those of the tasks before
    it, and nothing is printed or opened for it or for the tasks after
    it. *)
Theorem print_bugs_stops_at_short_title (good rest : list Task.t) (bad : Task.t)
    (open_in_browser shortlinks : bool) :
  Forall cache_ok good ->
  Forall (fun task => (3 <= count_spaces (lp_title (obj task)))%nat) good ->
  cache_ok bad ->
  (count_spaces (lp_title (obj bad)) < 3)%nat ->
  (print_bugs good open_in_browser shortlinks).1 = Ok tt
  /\ print_bugs (good ++ bad :: rest) open_in_browser shortlinks
     = (Raise IndexError, (print_bugs good open_in_browser shortlinks).2).
Proof.
  intros Hok H3 Hbad Hlt.
  destruct (print_bugs_chunks good open_in_browser shortlinks Hok H3)
    as (chunks & Hp & _).
  assert (Hg : (print_bugs good open_in_browser shortlinks).1 = Ok tt)
    by (by rewrite Hp).
  split; [exact Hg |].
  rewrite (print_bugs_app _ _ _ _ Hg).
  apply (pretty_line_too_short shortlinks (obj bad) (subscribed bad)) in Hlt.
  destruct (print_bug_raises open_in_browser shortlinks bad _ Hbad Hlt)
    as (task' & Hb).
  cbn [print_bugs]. rewrite Hb. cbn [fst snd]. by rewrite app_nil_r.
Qed.

Lemma print_bugs_stops_at_short_title_witness :
  (print_bugs [create_from_launchpadlib_object Sample.bug true] true true).1
  = Ok tt
  /\ print_bugs
       ([create_from_launchpadlib_object Sample.bug true]
        ++ create_from_launchpadlib_object
             (mk_lp_task "https://api.launchpad.net/1.0/bugs/2" "Bug #2" "New")
             false
           :: [create_from_launchpadlib_object Sample.quoted_bug false])
       true true
     = (Raise IndexError,
        (print_bugs [create_from_launchpadlib_object Sample.bug true]
           true true).2).
Proof.
  apply (print_bugs_stops_at_short_title
           [create_from_launchpadlib_object Sample.bug true]
           [create_from_launchpadlib_object Sample.quoted_bug false]
           (create_from_launchpadlib_object
              (mk_lp_task "https://api.launchpad.net/1.0/bugs/2" "Bug #2" "New")
              false)
           true true).
  - repeat constructor; apply cache_ok_new.
  - repeat constructor; vm_compute; lia.
  - apply cache_ok_new.
  - vm_compute. lia.
Defined.

End ReportFacts.

(** ** Searching *)

Module PipelineFacts.
Import PyDate PyDateFacts Triage TriageFacts Report ReportFacts.

(** The dict keeps, for each link, the last task of the answer that has
    it. *)
Lemma by_self_link_last (tasks : list lp_task) (link : string) :
  by_self_link tasks !! link
  = last (filter (fun task => self_link task = link) tasks).
Proof.
  induction tasks as [| x tasks IH] using rev_ind; [reflexivity |].
  rewrite by_self_link_snoc, filter_app, lookup_insert.
  destruct (decide (self_link x = link)) as [E | N].
  - rewrite filter_cons_True by exact E. rewrite filter_nil. by rewrite last_snoc.
  - rewrite filter_cons_False by exact N. rewrite filter_nil, app_nil_r. exact IH.
Qed.

Lemma wrap_tasks_new (in_range already : gmap string lp_task) :
  Forall (fun task => Task._cache task = ∅) (wrap_tasks in_range already).
Proof. unfold wrap_tasks. apply Forall_fmap, Forall_forall. by intros [k v] _. Qed.

Lemma wrap_tasks_last (s_start s_end : list lp_task)
    (already : gmap string lp_task) :
  Forall (fun task =>
            last (filter (fun x => self_link x = task_link task) s_start)
            = Some (Task.obj task))
    (wrap_tasks (bugs_in_range (by_self_link s_start) (by_self_link s_end))
       already).
Proof.
  unfold wrap_tasks. apply Forall_fmap, Forall_forall.
  intros [k task] Hin. cbn. unfold task_link. cbn.
  apply elem_of_map_to_list, bugs_in_range_Some in Hin as [Hs _].
  pose proof (by_self_link_Some _ _ _ Hs) as [_ Hk]. rewrite Hk.
  by rewrite <- by_self_link_last.
Qed.

Section Remote.

Variable launchpad : Type.
Variable searchTasks : query -> launchpad -> list lp_task * launchpad.

Local Abbreviation modified_bugs := (modified_bugs launchpad searchTasks).
Local Abbreviation snapshots := (snapshots launchpad searchTasks).

(** The result of [modified_bugs] in terms of the three answers. *)
Lemma modified_bugs_unfold (start_date end_date : date_arg) (lpname : string)
    (bugsubscriber : bool) (lp : launchpad) :
  (modified_bugs start_date end_date lpname bugsubscriber lp).1
  = wrap_tasks
      (bugs_in_range
         (by_self_link (snapshots start_date end_date lpname bugsubscriber lp).1.1)
         (by_self_link (snapshots start_date end_date lpname bugsubscriber lp).1.2))
      (match (snapshots start_date end_date lpname bugsubscriber lp).2 with
       | Some r3 => by_self_link r3
       | None => ∅
       end).
Proof.
  unfold Triage.modified_bugs, Triage.snapshots. cbv zeta.
  destruct bugsubscriber.
  - destruct (searchTasks _ lp) as [r1 lp1].
    by destruct (searchTasks _ lp1) as [r2 lp2].
  - destruct (searchTasks _ lp) as [r1 lp1].
    destruct (searchTasks _ lp1) as [r2 lp2].
    by destruct (searchTasks _ lp2) as [r3 lp3].
Qed.

(** X9: in structural-subscriber mode the searches made are these
    three, in this order, each on the state the one before left: since the
    start for the team as structural subscriber, since the end for the
    team as structural subscriber, since the start for the team as
    structural and as direct subscriber; the remote is left in the state
    after the third. The tasks returned are those whose link is in the
    first answer and not in the second, and each has [subscribed] true
    exactly when its link occurs in the third answer, false otherwise. *)
Theorem structural_subscribed_annotation (start_date end_date : date_arg)
    (lpname : string) (lp : launchpad) :
  let first := searchTasks (mk_query start_date (Some lpname) None) lp in
  let second := searchTasks (mk_query end_date (Some lpname) None) first.2 in
  let third :=
    searchTasks (mk_query start_date (Some lpname) (Some lpname)) second.2 in
  let bugs := (modified_bugs start_date end_date lpname false lp).1 in
  (modified_bugs start_date end_date lpname false lp).2 = third.2
  /\ (forall link,
        link ∈ task_link <$> bugs
        <-> link ∈ self_link <$> first.1 /\ link ∉ self_link <$> second.1)
  /\ Forall
       (fun task =>
          exists b,
            Task.subscribed task = Some b
            /\ (b = true <-> task_link task ∈ self_link <$> third.1))
       bugs.
Proof.
  cbv zeta. unfold Triage.modified_bugs. cbv zeta.
  destruct (searchTasks (mk_query start_date (Some lpname) None) lp)
    as [r1 lp1]. cbn [fst snd].
  destruct (searchTasks (mk_query end_date (Some lpname) None) lp1)
    as [r2 lp2]. cbn [fst snd].
  destruct (searchTasks (mk_query start_date (Some lpname) (Some lpname)) lp2)
    as [r3 lp3]. cbn [fst snd].
  destruct (wrap_tasks_difference r1 r2 (by_self_link r3)) as (_ & Hiff & _ & H).
  split; [reflexivity |]. split; [exact Hiff |].
  eapply Forall_impl; [exact H |].
  intros task Hs. cbn beta in Hs. eexists. split; [exact Hs |].
  rewrite bool_decide_eq_true. apply by_self_link_is_Some.
Qed.

(** X10: when a link occurs several times in the answer of the first
    search, the task returned for it wraps the last of them; and every
    task returned starts with an empty cache. *)
Theorem last_duplicate_wins (start_date end_date : date_arg) (lpname : string)
    (bugsubscriber : bool) (lp : launchpad) :
  let s_start := (snapshots start_date end_date lpname bugsubscriber lp).1.1 in
  let bugs := (modified_bugs start_date end_date lpname bugsubscriber lp).1 in
  Forall (fun task =>
            last (filter (fun x => self_link x = task_link task) s_start)
            = Some (Task.obj task)) bugs
  /\ Forall (fun task => Task._cache task = ∅) bugs.
Proof.
  cbv zeta. rewrite modified_bugs_unfold.
  split; [apply wrap_tasks_last | apply wrap_tasks_new].
Qed.

(** X11: no more tasks come back than the first search answered, and
    none at all when every link of the first answer is also in the
    second. *)
Theorem modified_bugs_size (start_date end_date : date_arg) (lpname : string)
    (bugsubscriber : bool) (lp : launchpad) :
  let s_start := (snapshots start_date end_date lpname bugsubscriber lp).1.1 in
  let s_end := (snapshots start_date end_date lpname bugsubscriber lp).1.2 in
  let bugs := (modified_bugs start_date end_date lpname bugsubscriber lp).1 in
  (length bugs <= length s_start)%nat
  /\ ((self_link <$> s_start) ⊆ (self_link <$> s_end) -> bugs = []).
Proof.
  cbv zeta. rewrite modified_bugs_unfold.
  destruct (wrap_tasks_difference
              (snapshots start_date end_date lpname bugsubscriber lp).1.1
              (snapshots start_date end_date lpname bugsubscriber lp).1.2
              (match (snapshots start_date end_date lpname bugsubscriber lp).2 with
               | Some r3 => by_self_link r3
               | None => ∅
               end)) as (Hnd & Hiff & _).
  cbv zeta in Hnd, Hiff. split.
  - rewrite <- (length_fmap task_link), <- (length_fmap self_link).
    apply submseteq_length, NoDup_submseteq; [exact Hnd |].
    intros link Hin. by apply Hiff in Hin as [? _].
  - intros Hsub.
    destruct (wrap_tasks _ _) as [| task bugs] eqn:E; [reflexivity |].
    exfalso. destruct (Hiff (task_link task)) as [Hf _].
    destruct Hf as [Hs He]; [rewrite fmap_cons; left |].
    apply He, Hsub, Hs.
Qed.

End Remote.

End PipelineFacts.

(** ** Searching, then printing *)

Module PipelineMore.
Import PyDate PyDateFacts Triage TriageFacts Report ReportFacts PipelineFacts.

Section Remote.

Variable launchpad : Type.
Variable searchTasks : query -> launchpad -> list lp_task * launchpad.

(** X12: searching and then printing. When every task of the first
    answer has a title with at least three spaces, [print_bugs] on the
    result of [modified_bugs] ends normally and emits, for each returned
    task in turn, the line of a task of the first answer and, with
    [open_in_browser], its page. *)
Theorem modified_bugs_then_print (start_date end_date : date_arg)
    (lpname : string) (bugsubscriber : bool) (lp : launchpad)
    (open_in_browser shortlinks : bool) :
  let s_start :=
    (snapshots launchpad searchTasks start_date end_date lpname bugsubscriber lp).1.1 in
  let bugs :=
    (modified_bugs launchpad searchTasks start_date end_date lpname bugsubscriber
       lp).1 in
  Forall (fun task => (3 <= count_spaces (lp_title task))%nat) s_start ->
  exists chunks,
    print_bugs bugs open_in_browser shortlinks = (Ok tt, concat chunks)
    /\ Forall2
         (fun task chunk =>
            exists line n,
              Task.pretty_line shortlinks (Task.obj task) (Task.subscribed task)
              = Ok line
              /\ Task.parse_number (lp_title (Task.obj task)) = Ok n
              /\ chunk = events_of open_in_browser line (Task.LONG_URL_ROOT +:+ n))
         bugs chunks
    /\ Forall (fun task => Task.obj task ∈ s_start) bugs.
Proof.
  intros s_start bugs H3. subst s_start bugs.
  rewrite modified_bugs_unfold.
  set (r1 := (snapshots launchpad searchTasks start_date end_date lpname
                bugsubscriber lp).1.1) in *.
  set (r2 := (snapshots launchpad searchTasks start_date end_date lpname
                bugsubscriber lp).1.2).
  set (already := match _ with Some r3 => by_self_link r3 | None => ∅ end).
  destruct (wrap_tasks_difference r1 r2 already) as (_ & _ & Hin & _).
  pose proof (wrap_tasks_new (bugs_in_range (by_self_link r1) (by_self_link r2))
                already) as Hnew.
  destruct (print_bugs_chunks
              (wrap_tasks (bugs_in_range (by_self_link r1) (by_self_link r2))
                 already) open_in_browser shortlinks)
    as (chunks & Hp & Hf).
  - eapply Forall_impl; [exact Hnew |]. intros [o c s] Hc. cbn in Hc. subst c.
    split; intros v; cbn; rewrite lookup_empty; discriminate.
  - rewrite Forall_forall in H3. rewrite Forall_forall in Hin.
    apply Forall_forall.
    intros task Ht. apply H3, Hin, Ht.
  - exists chunks. auto.
Qed.

Lemma create_bug_list_Raise (now : datetime) (start_date end_date : option string)
    (lpname : string) (bugsubscriber nodatefilter : bool) (lp : launchpad)
    (e : exn) :
  check_dates now start_date end_date nodatefilter = Raise e ->
  create_bug_list launchpad searchTasks now start_date end_date lpname
    bugsubscriber nodatefilter lp = (Raise e, lp).
Proof. intros H. unfold create_bug_list. by rewrite H. Qed.

(** X13: [create_bug_list] with a start date. An end date in force that
    does not parse, or that is the last day of the calendar, ends the run
    with the error before any search is made; otherwise the searches are
    those of [modified_bugs] since the start as given and since the text
    of the day after the end. *)
Theorem create_bug_list_checks_dates_first (now : datetime) (start : string)
    (end_ : option string) (lpname : string) (bugsubscriber nodatefilter : bool)
    (lp : launchpad) :
  start <> EmptyString ->
  match strptime (inclusive_end start end_) with
  | Raise _ =>
      create_bug_list launchpad searchTasks now (Some start) end_ lpname
        bugsubscriber nodatefilter lp = (Raise ValueError, lp)
  | Ok dt =>
      if toordinal (dt_date dt) + 1 <=? _MAXORDINAL then
        let next := fromordinal (toordinal (dt_date dt) + 1) in
        toordinal next = toordinal (dt_date dt) + 1
        /\ create_bug_list launchpad searchTasks now (Some start) end_ lpname
             bugsubscriber nodatefilter lp
           = ((Ok (modified_bugs launchpad searchTasks (DStr start)
                     (DStr (strftime next)) lpname bugsubscriber lp).1),
              (modified_bugs launchpad searchTasks (DStr start)
                 (DStr (strftime next)) lpname bugsubscriber lp).2)
      else
        create_bug_list launchpad searchTasks now (Some start) end_ lpname
          bugsubscriber nodatefilter lp = (Raise OverflowError, lp)
  end.
Proof.
  intros Hs. destruct start as [| c s]; [congruence |].
  assert (Hc : check_dates now (Some (String c s)) end_ nodatefilter
               = add_one_day (String c s) end_) by reflexivity.
  pose proof (add_one_day_cases (String c s) end_) as Ha.
  destruct (strptime (inclusive_end (String c s) end_)) as [dt | e] eqn:E.
  - destruct (strptime_Ok_inv _ _ E) as [V Hm].
    pose proof (toordinal_valid_range _ V) as Hr.
    destruct (toordinal (dt_date dt) + 1 <=? _MAXORDINAL).
    + cbv zeta. split; [apply toordinal_fromordinal; lia |].
      unfold create_bug_list. rewrite Hc, Ha.
      by destruct (modified_bugs _ _ _ _ _ _ _).
    + apply create_bug_list_Raise. by rewrite Hc.
  - apply create_bug_list_Raise. by rewrite Hc.
Qed.

End Remote.

Lemma modified_bugs_then_print_witness :
  exists chunks,
    print_bugs
      (modified_bugs Scripted.launchpad Scripted.searchTasks (DStr "2016-07-15")
         (DStr "2016-07-16") "ubuntu-server" false Scripted.script).1
      true true
    = (Ok tt, concat chunks)
    /\ Forall2
         (fun task chunk =>
            exists line n,
              Task.pretty_line true (Task.obj task) (Task.subscribed task) = Ok line
              /\ Task.parse_number (lp_title (Task.obj task)) = Ok n
              /\ chunk = events_of true line (Task.LONG_URL_ROOT +:+ n))
         (modified_bugs Scripted.launchpad Scripted.searchTasks (DStr "2016-07-15")
            (DStr "2016-07-16") "ubuntu-server" false Scripted.script).1
         chunks
    /\ Forall
         (fun task =>
            Task.obj task
            ∈ (snapshots Scripted.launchpad Scripted.searchTasks (DStr "2016-07-15")
                 (DStr "2016-07-16") "ubuntu-server" false Scripted.script).1.1)
         (modified_bugs Scripted.launchpad Scripted.searchTasks (DStr "2016-07-15")
            (DStr "2016-07-16") "ubuntu-server" false Scripted.script).1.
Proof.
  apply (modified_bugs_then_print Scripted.launchpad Scripted.searchTasks
           (DStr "2016-07-15") (DStr "2016-07-16") "ubuntu-server" false
           Scripted.script true true).
  repeat constructor; vm_compute; lia.
Defined.

Lemma create_bug_list_checks_dates_first_witness :
  create_bug_list Scripted.launchpad Scripted.searchTasks Sample.wednesday
    (Some "2016-07-15") (Some "garbage") "ubuntu-server" false false Scripted.script
  = (Raise ValueError, Scripted.script).
Proof.
  apply (create_bug_list_checks_dates_first Scripted.launchpad Scripted.searchTasks
           Sample.wednesday "2016-07-15" (Some "garbage") "ubuntu-server" false
           false Scripted.script).
  discriminate.
Defined.

(** X14: without a start, an end date is overridden on a Monday and
    honoured on any other day: when yesterday is a Sunday the result is
    that of no end at all, and otherwise it is that of yesterday given as
    the start. *)
Theorem end_without_start (now : datetime) (end_ : option string) :
  valid_date (dt_date now) = true ->
  4 <= toordinal (dt_date now) ->
  let yesterday := fromordinal (toordinal (dt_date now) - 1) in
  if weekday yesterday =? 6
  then check_dates now None end_ false = check_dates now None None false
  else check_dates now None end_ false
       = check_dates now (Some (strftime yesterday)) end_ false.
Proof.
  intros V H4 yesterday.
  pose proof (toordinal_valid_range _ V) as Hr.
  rewrite !(check_dates_in_force now None _ false eq_refl).
  unfold dates_in_force.
  rewrite !default_dates_spec by lia. fold yesterday.
  destruct (weekday yesterday =? 6); [reflexivity |].
  cbn [result_bind]. destruct (strftime_cons yesterday) as (c & r & ->).
  reflexivity.
Qed.

Lemma end_without_start_witness :
  check_dates Sample.monday None (Some "2016-07-01") false
  = check_dates Sample.monday None None false.
Proof.
  exact (end_without_start Sample.monday (Some "2016-07-01") eq_refl
           (Zle_bool_imp_le 4 (toordinal (dt_date Sample.monday)) eq_refl)).
Defined.

End PipelineMore.
